(** * SparkDataset: a shallow embedding of [mlflow/data/spark_dataset.py]

  The development follows the Python module top to bottom: the pieces of
  the Python runtime the module relies on (exceptions, [None] counting,
  truthiness, [logging.Logger] attribute lookup, [functools.cached_property]),
  the two dataframe types it handles (Spark and pandas), the collaborators it
  imports from modules outside this file, and then the class [SparkDataset]
  with the factories [load_delta] and [from_spark]. *)

From Stdlib Require Import ZArith List Bool Ascii String.
From stdpp Require Import gmap strings list fin_maps pretty.

Open Scope string_scope.
Open Scope list_scope.
#[local] Set Warnings "-abstract-large-number".

(** ** Python runtime *)

Module Py.

(** [mlflow.protos.databricks_pb2] error codes used by the module. *)
Inductive ErrorCode := INVALID_PARAMETER_VALUE | INTERNAL_ERROR.

(** Exceptions, all of them subclasses of [Exception]. *)
Inductive Exn :=
| MlflowException (message : string) (error_code : ErrorCode)
| AttributeError (message : string)
| KeyError (key : string)
| OtherException (cls message : string).

(** [str(e)] as used by the [%s] of a logging format string. *)
Definition exn_str (e : Exn) : string :=
  match e with
  | MlflowException m _ => m
  | AttributeError m => m
  | KeyError k => "'" +:+ k +:+ "'"
  | OtherException _ m => m
  end.

Inductive Res (A : Type) :=
| Ok (a : A)
| Raise (e : Exn).
Arguments Ok {A} a.
Arguments Raise {A} e.

Definition is_ok {A} (r : Res A) : bool :=
  match r with Ok _ => true | Raise _ => false end.

(** Is [r] an [MlflowException] carrying error code [c]? *)
Definition raises_code {A} (c : ErrorCode) (r : Res A) : Prop :=
  exists m, r = Raise (MlflowException m c).

(** Computations that may raise and that thread a state of type [S]:
    the state reached when an exception is raised is kept. *)
Definition M (S A : Type) : Type := S -> Res A * S.

Definition ret {S A} (a : A) : M S A := fun s => (Ok a, s).
Definition raise {S A} (e : Exn) : M S A := fun s => (Raise e, s).
Definition bind {S A B} (m : M S A) (k : A -> M S B) : M S B :=
  fun s => match m s with
           | (Ok a, s') => k a s'
           | (Raise e, s') => (Raise e, s')
           end.
Definition lift {S A} (r : Res A) : M S A := fun s => (r, s).
Definition gets {S A} (f : S -> A) : M S A := fun s => (Ok (f s), s).
Definition modify {S} (f : S -> S) : M S unit := fun s => (Ok tt, f s).

(** [try: m except Exception as e: h e] *)
Definition try_except {S A} (m : M S A) (h : Exn -> M S A) : M S A :=
  fun s => match m s with
           | (Ok a, s') => (Ok a, s')
           | (Raise e, s') => h e s'
           end.

(** [(x1, ..., xn).count(None)] *)
Definition count_None {A} (xs : list (option A)) : nat :=
  length (filter (fun x => x = None) xs).

(** Truth value of an [Optional[str]]: [None] and the empty string are
    false, every other string is true. *)
Definition truthy (o : option string) : bool :=
  match o with
  | None => false
  | Some EmptyString => false
  | Some (String _ _) => true
  end.

(** [logging.Logger]: the methods of an instance that log a record, each at
    its level.  The name the module looks up, [_warning], is none of them and
    no other attribute of the class either (its underscore names are [_log]
    and [_cache]); the lookup of a name the object does not have raises
    [AttributeError]. *)
Inductive LogLevel := DEBUG | INFO | WARNING | ERROR | CRITICAL.

Definition Logger_getattr (attr : string) : Res LogLevel :=
  if decide (attr = "debug") then Ok DEBUG
  else if decide (attr = "info") then Ok INFO
  else if decide (attr = "warning") then Ok WARNING
  else if decide (attr = "warn") then Ok WARNING
  else if decide (attr = "error") then Ok ERROR
  else if decide (attr = "exception") then Ok ERROR
  else if decide (attr = "critical") then Ok CRITICAL
  else if decide (attr = "fatal") then Ok CRITICAL
  else Raise (AttributeError
                ("'Logger' object has no attribute '" +:+ attr +:+ "'")).

(** JSON-serialisable values, the arguments of [json.dumps]. *)
#[local] Unset Elimination Schemes.
Inductive Json :=
| JNull
| JInt (n : Z)
| JStr (s : string)
| JList (xs : list Json)
| JDict (items : list (string * Json)).
#[local] Set Elimination Schemes.

End Py.
Export Py.

Declare Scope py_scope.
Delimit Scope py_scope with py.
Notation "x <- m ;; k" := (bind m (fun x => k))
(at level 100, m at next level, right associativity) : py_scope.
Notation "m ;;; k" := (bind m (fun _ => k))
(at level 100, right associativity) : py_scope.

(** ** Dataframes *)

(** A cell of a table. *)
Inductive Cell :=
| CNull
| CInt (n : Z)
| CStr (s : string).

(** [pandas.DataFrame]: column labels and the rows under them. *)
Module Pandas.

Record DataFrame := {
  columns : list string;
  rows : list (list Cell)
}.

Definition nrows (df : DataFrame) : nat := length (rows df).

(** The cells of [row] whose column label satisfies [keep]. *)
Definition select_cells (keep : string -> bool) (labels : list string)
    (row : list Cell) : list Cell :=
  (filter (fun lc => keep lc.1 = true) (zip labels row)).*2.

(** [df.drop(columns=label)]: [KeyError] when the label is not found. *)
Definition drop (label : string) (df : DataFrame) : Res DataFrame :=
  if decide (label ∈ columns df) then
    Ok {| columns := filter (fun c => c ≠ label) (columns df);
          rows := select_cells (fun c => negb (bool_decide (c = label)))
                    (columns df) <$> rows df |}
  else Raise (KeyError label).

(** [df[label]]: the column(s) carrying that label, over the same index;
    [KeyError] when the label is not found.  A one-column result stands
    for the [pandas.Series] returned when the label is unique. *)
Definition getitem (label : string) (df : DataFrame) : Res DataFrame :=
  if decide (label ∈ columns df) then
    Ok {| columns := filter (fun c => c = label) (columns df);
          rows := select_cells (fun c => bool_decide (c = label))
                    (columns df) <$> rows df |}
  else Raise (KeyError label).

End Pandas.

(** [pyspark.sql.DataFrame]: the column names and the rows in the order in
  which the engine delivers them. *)
Module Spark.

Record DataFrame := {
  columns : list string;
  rows : list (list Cell)
}.

(** [df.limit(n)]: the first [n] rows. *)
Definition limit (n : nat) (df : DataFrame) : DataFrame :=
  {| columns := columns df; rows := take n (rows df) |}.

(** [df.toPandas()]: all rows are collected into a local table. *)
Definition toPandas (df : DataFrame) : Pandas.DataFrame :=
  {| Pandas.columns := columns df; Pandas.rows := rows df |}.

End Spark.

(** ** Collaborators defined outside this module *)

(** [mlflow.types.Schema]: the column specification of a table, each column
    with the name of its type. *)
Record Schema := {
  colspecs : list (string * string)
}.

(** [DatasetSource] as [SparkDataset.source] returns it: an instance of
    [SparkDatasetSource] or of [DeltaDatasetSource], with the keyword
    arguments each was built from. *)
Inductive DatasetSource :=
| SparkDatasetSource (path table_name sql : option string)
| DeltaDatasetSource (path delta_table_name delta_table_version : option string).

(** The functions the module imports and calls but does not define:
    [mlflow.data.spark_delta_utils], [DeltaDatasetSource.load],
    [mlflow.types.utils._infer_schema], [Schema.to_dict], the RDD's
    [countApprox] and [json.dumps].  The table-name lookup takes an
    [Optional[str]] because [load_delta] passes it its [table_name]
    parameter as it is. *)
Record Externals := {
  _is_delta_table_path : string -> bool;
  _is_delta_table : string -> bool;
  _try_get_delta_table_latest_version_from_path : string -> option string;
  _try_get_delta_table_latest_version_from_table_name :
    option string -> option string;
  DeltaDatasetSource_load : DatasetSource -> Res Spark.DataFrame;
  _infer_schema : Spark.DataFrame -> Res Schema;
  Schema_to_dict : Schema -> Json;
  countApprox : Spark.DataFrame -> Z -> Z -> Z;
  json_dumps : Json -> string
}.

(** What the module does to the outside world, in the order it does it:
    calls into the Spark engine and the Delta utilities, and log records. *)
Inductive Event :=
| CallIsDeltaTablePath (path : string)
| CallIsDeltaTable (table_name : string)
| CallLatestVersionFromPath (path : string)
| CallLatestVersionFromTableName (table_name : option string)
| CallLoad (source : DatasetSource)
| CallInferSchema
| CallCountApprox (timeout confidence_percent : Z)
| LogRecord (level : LogLevel) (message : string).

Abbreviation Trace := (list Event).

Definition emit (e : Event) : M Trace unit := modify (fun tr => tr ++ [e]).

(** ** The class [SparkDataset] *)

(** An instance: the attributes [__init__] sets, and the entry that
    [cached_property] writes into the instance dictionary under the name
    [schema] ([None] here: no entry yet; [Some v]: the entry holds [v],
    which is a schema or Python's [None]). *)
Record SparkDataset := {
  _df : Spark.DataFrame;
  _targets : option string;
  _source : DatasetSource;
  _name : option string;
  _digest : option string;
  schema_entry : option (option Schema)
}.

(** Modelled from the spec: [Dataset.__init__] of [mlflow/data/dataset.py],
    the base class, is not among the sources.  The spec has construction
    store all fields and trigger no computation beyond the column-membership
    check, the digest being the caller's or else computed lazily. *)
Definition Dataset_init (df : Spark.DataFrame) (targets : option string)
    (source : DatasetSource) (name digest : option string) : SparkDataset :=
  {| _df := df; _targets := targets; _source := source; _name := name;
     _digest := digest; schema_entry := None |}.

Definition missing_targets_message (targets : string) : string :=
  "The specified Spark dataset does not contain the specified targets column '"
  +:+ targets +:+ "'.".

(** [SparkDataset.__init__] *)
Definition SparkDataset_init (df : Spark.DataFrame) (source : DatasetSource)
    (targets name digest : option string) : Res SparkDataset :=
  match targets with
  | Some t =>
      if decide (t ∈ Spark.columns df)
      then Ok (Dataset_init df targets source name digest)
      else Raise (MlflowException (missing_targets_message t)
                    INVALID_PARAMETER_VALUE)
  | None => Ok (Dataset_init df targets source name digest)
  end.

(** State of a method call: the instance [self] the method runs on and the
    trace of what has happened so far. *)
Record Frame := {
  self : SparkDataset;
  trace : Trace
}.

Definition emit_in (e : Event) : M Frame unit :=
  modify (fun fr => {| self := self fr; trace := trace fr ++ [e] |}).

Definition set_schema_entry (v : option Schema) (fr : Frame) : Frame :=
  {| self := {| _df := _df (self fr); _targets := _targets (self fr);
                _source := _source (self fr); _name := _name (self fr);
                _digest := _digest (self fr); schema_entry := Some v |};
     trace := trace fr |}.

(** [functools.cached_property]: the first access that returns stores the
    value in the instance dictionary, later accesses read it from there.
    An access whose function raises stores nothing. *)
Definition cached_property {A} (entry : SparkDataset -> option A)
    (store : A -> Frame -> Frame) (func : M Frame A) : M Frame A :=
  (cached <- gets (fun fr => entry (self fr)) ;;
   match cached with
   | Some v => ret v
   | None => v <- func ;; modify (store v) ;;; ret v
   end)%py.

(** [fmt % arg] for a format with one [%s]. *)
Fixpoint percent_s (fmt arg : string) : string :=
  match fmt with
  | String "%"%char (String "s"%char rest) => arg +:+ rest
  | String c rest => String c (percent_s rest arg)
  | EmptyString => EmptyString
  end.

(** [_logger.<attr>(fmt, e)]: the attribute is looked up first; a logging
    method then emits one record. *)
Definition Logger_call (attr fmt : string) (e : Exn) : M Frame unit :=
  (level <- lift (Logger_getattr attr) ;;
   emit_in (LogRecord level (percent_s fmt (exn_str e))))%py.

Definition call_infer_schema (E : Externals) : M Frame Schema :=
  (emit_in CallInferSchema ;;;
   df <- gets (fun fr => _df (self fr)) ;;
   lift (_infer_schema E df))%py.

(** The function under [@cached_property def schema]. *)
Definition schema_func (E : Externals) : M Frame (option Schema) :=
  try_except
    (s <- call_infer_schema E ;; ret (Some s))%py
    (fun e =>
       Logger_call "_warning"
         "Failed to infer schema for Spark dataset. Exception: %s" e ;;;
       ret None)%py.

(** [SparkDataset.schema] *)
Definition schema (E : Externals) : M Frame (option Schema) :=
  cached_property schema_entry set_schema_entry (schema_func E).

(** [SparkDataset.profile] (the confidence 0.90 is written in hundredths). *)
Definition profile (E : Externals) : M Frame Json :=
  (df <- gets (fun fr => _df (self fr)) ;;
   emit_in (CallCountApprox 1000 90) ;;;
   let approx_count := countApprox E df 1000 90 in
   ret (JDict [("approx_count", JInt approx_count)]))%py.

(** [value.to_dict()] for the value of the [schema] property: Python's
    [None] has no such attribute. *)
Definition schema_to_dict (E : Externals) (v : option Schema) : Res Json :=
  match v with
  | Some s => Ok (Schema_to_dict E s)
  | None => Raise (AttributeError
                     "'NoneType' object has no attribute 'to_dict'")
  end.

(** [SparkDataset._to_dict]: the dictionary literal is evaluated entry by
    entry, then [base_dict] is updated with it and returned. *)
Definition _to_dict (E : Externals) (base_dict : gmap string string)
    : M Frame (gmap string string) :=
  (s <- schema E ;;
   colspec <- lift (schema_to_dict E s) ;;
   let schema_json := json_dumps E (JDict [("mlflow_colspec", colspec)]) in
   p <- profile E ;;
   let profile_json := json_dumps E p in
   ret (<["profile" := profile_json]> (<["schema" := schema_json]> base_dict)))%py.

(** [PyFuncInputsOutputs] *)
Record PyFuncInputsOutputs := {
  inputs : Pandas.DataFrame;
  outputs : option Pandas.DataFrame
}.

Definition pyfunc_missing_targets_message (targets : string) : string :=
  "Failed to convert Spark dataset to pyfunc inputs and outputs because"
  +:+ " the pandas representation of the Spark dataset does not contain the"
  +:+ " specified targets column '" +:+ targets +:+ "'.".

(** [self._df.limit(10000).toPandas()] *)
Definition materialize (ds : SparkDataset) : Pandas.DataFrame :=
  Spark.toPandas (Spark.limit 10000 (_df ds)).

(** [SparkDataset.to_pyfunc] *)
Definition to_pyfunc (ds : SparkDataset) : Res PyFuncInputsOutputs :=
  let df := materialize ds in
  match _targets ds with
  | Some t =>
      if decide (t ∈ Pandas.columns df) then
        match Pandas.drop t df with
        | Raise e => Raise e
        | Ok inputs =>
            match Pandas.getitem t df with
            | Raise e => Raise e
            | Ok outputs => Ok {| inputs := inputs; outputs := Some outputs |}
            end
        end
      else Raise (MlflowException (pyfunc_missing_targets_message t)
                    INTERNAL_ERROR)
  | None => Ok {| inputs := df; outputs := None |}
  end.

(** ** The factories *)

(** Calls into [mlflow.data.spark_delta_utils] and the source's [load],
    each recorded in the trace. *)
Definition call_is_delta_table_path (E : Externals) (path : string)
    : M Trace bool :=
  (emit (CallIsDeltaTablePath path) ;;; ret (_is_delta_table_path E path))%py.

Definition call_is_delta_table (E : Externals) (table_name : string)
    : M Trace bool :=
  (emit (CallIsDeltaTable table_name) ;;; ret (_is_delta_table E table_name))%py.

Definition call_latest_version_from_path (E : Externals) (path : string)
    : M Trace (option string) :=
  (emit (CallLatestVersionFromPath path) ;;;
   ret (_try_get_delta_table_latest_version_from_path E path))%py.

Definition call_latest_version_from_table_name (E : Externals)
    (table_name : option string) : M Trace (option string) :=
  (emit (CallLatestVersionFromTableName table_name) ;;;
   ret (_try_get_delta_table_latest_version_from_table_name E table_name))%py.

Definition call_load (E : Externals) (source : DatasetSource)
    : M Trace Spark.DataFrame :=
  (emit (CallLoad source) ;;; lift (DeltaDatasetSource_load E source))%py.

Definition exactly_one_of_two_message : string :=
  "Must specify exactly one of `table_name` or `path`.".

Definition exactly_one_of_three_message : string :=
  "Must specify exactly one of `path`, `table_name`, or `sql`.".

Definition version_with_sql_message : string :=
  "`version` may not be specified when `sql` is specified. `version` may only be"
  +:+ " specified when `table_name` or `path` is specified.".

Definition version_not_delta_path_message (version path : string) : string :=
  "Version '" +:+ version +:+ "' was specified, but the path '" +:+ path
  +:+ "' does not refer" +:+ " to a Delta table.".

Definition version_not_delta_table_message (version table_name : string)
    : string :=
  "Version '" +:+ version
  +:+ "' was specified, but could not find a Delta table with name"
  +:+ " '" +:+ table_name +:+ "'.".

(** The default name: [table_name] followed by the letter v and the
    version, or [table_name] alone when there is no version. *)
Definition default_name (table_name : string) (version : option string)
    : string :=
  table_name +:+ match version with
                 | Some v => "v" +:+ v
                 | None => EmptyString
                 end.

(** [load_delta] *)
Definition load_delta (E : Externals)
    (path table_name version targets name digest : option string)
    : M Trace SparkDataset :=
  (if decide (count_None [path; table_name] ≠ 1) then
     raise (MlflowException exactly_one_of_two_message INVALID_PARAMETER_VALUE)
   else
     version <- match version with
                | None =>
                    match path with
                    | Some p => call_latest_version_from_path E p
                    | None => call_latest_version_from_table_name E table_name
                    end
                | Some _ => ret version
                end ;;
     let name := match name, table_name with
                 | None, Some t => Some (default_name t version)
                 | _, _ => name
                 end in
     let source := DeltaDatasetSource path table_name version in
     df <- call_load E source ;;
     lift (SparkDataset_init df source targets name digest))%py.

(** Reading the local variable [source] on a path that never assigned it. *)
Definition unbound_source : Exn :=
  OtherException "UnboundLocalError"
    "local variable 'source' referenced before assignment".

(** [version or lookup]: the lookup runs only when [version] is falsy. *)
Definition version_or (version : option string)
    (lookup : M Trace (option string)) : M Trace (option string) :=
  if truthy version then ret version else lookup.

(** [from_spark] *)
Definition from_spark (E : Externals) (df : Spark.DataFrame)
    (path table_name version sql targets name digest : option string)
    : M Trace SparkDataset :=
  (if decide (count_None [path; table_name; sql] ≠ 2) then
     raise (MlflowException exactly_one_of_three_message
              INVALID_PARAMETER_VALUE)
   else if decide (count_None [sql; version] = 0) then
     raise (MlflowException version_with_sql_message INVALID_PARAMETER_VALUE)
   else
     source <-
       match sql, path, table_name with
       | Some q, _, _ => ret (SparkDatasetSource None None (Some q))
       | None, Some p, _ =>
           is_delta <- call_is_delta_table_path E p ;;
           if is_delta : bool then
             version <- version_or version
                          (call_latest_version_from_path E p) ;;
             ret (DeltaDatasetSource (Some p) None version)
           else
             match version with
             | None => ret (SparkDatasetSource (Some p) None None)
             | Some v =>
                 raise (MlflowException (version_not_delta_path_message v p)
                          INVALID_PARAMETER_VALUE)
             end
       | None, None, Some t =>
           is_delta <- call_is_delta_table E t ;;
           if is_delta : bool then
             version <- version_or version
                          (call_latest_version_from_table_name E (Some t)) ;;
             ret (DeltaDatasetSource None (Some t) version)
           else
             match version with
             | None => ret (SparkDatasetSource None (Some t) None)
             | Some v =>
                 raise (MlflowException (version_not_delta_table_message v t)
                          INVALID_PARAMETER_VALUE)
             end
       | None, None, None => raise unbound_source
       end ;;
     lift (SparkDataset_init df source targets name digest))%py.

(** ** Sample inputs *)

Module Sample.

(** A five-row table with the columns [x] and [y]. *)
Definition xy : Spark.DataFrame :=
  {| Spark.columns := ["x"; "y"];
     Spark.rows := [[CInt 1; CInt 10]; [CInt 2; CInt 20]; [CInt 3; CInt 30];
                    [CInt 4; CInt 40]; [CInt 5; CInt 50]] |}.

(** A one-column table with [n] rows. *)
Definition tall (n : nat) : Spark.DataFrame :=
  {| Spark.columns := ["x"]; Spark.rows := replicate n [CInt 0] |}.

Definition quote : string := String (ascii_of_nat 34) EmptyString.

(** A compact JSON writer for strings that need no escaping. *)
Fixpoint dumps (j : Json) : string :=
  match j with
  | JNull => "null"
  | JInt n => pretty n
  | JStr s => quote +:+ s +:+ quote
  | JList xs =>
      "[" +:+ (fix items (xs : list Json) : string :=
                 match xs with
                 | [] => EmptyString
                 | [x] => dumps x
                 | x :: rest => dumps x +:+ ", " +:+ items rest
                 end) xs +:+ "]"
  | JDict kvs =>
      "{" +:+ (fix items (kvs : list (string * Json)) : string :=
                 match kvs with
                 | [] => EmptyString
                 | [(k, v)] => quote +:+ k +:+ quote +:+ ": " +:+ dumps v
                 | (k, v) :: rest =>
                     quote +:+ k +:+ quote +:+ ": " +:+ dumps v +:+ ", "
                     +:+ items rest
                 end) kvs +:+ "}"
  end.

Definition colspec_to_dict (c : string * string) : Json :=
  JDict [("type", JStr c.2); ("name", JStr c.1)].

Definition infer (df : Spark.DataFrame) : Res Schema :=
  Ok {| colspecs := (fun c => (c, "long")) <$> Spark.columns df |}.

(** An engine in which [/delta/events] and the table [events] are Delta
    tables at version 7, every load yields [xy], and schema inference
    succeeds. *)
Definition engine : Externals :=
  {| _is_delta_table_path := fun p => bool_decide (p = "/delta/events");
     _is_delta_table := fun t => bool_decide (t = "events");
     _try_get_delta_table_latest_version_from_path := fun _ => Some "7";
     _try_get_delta_table_latest_version_from_table_name := fun _ => Some "7";
     DeltaDatasetSource_load := fun _ => Ok xy;
     _infer_schema := infer;
     Schema_to_dict := fun s => JList (colspec_to_dict <$> colspecs s);
     countApprox := fun df _ _ => Z.of_nat (length (Spark.rows df));
     json_dumps := dumps |}.

(** The same engine, except that schema inference raises. *)
Definition unsupported : Exn :=
  MlflowException "Unsupported Spark Type" INVALID_PARAMETER_VALUE.

Definition engine_no_schema : Externals :=
  {| _is_delta_table_path := _is_delta_table_path engine;
     _is_delta_table := _is_delta_table engine;
     _try_get_delta_table_latest_version_from_path :=
       _try_get_delta_table_latest_version_from_path engine;
     _try_get_delta_table_latest_version_from_table_name :=
       _try_get_delta_table_latest_version_from_table_name engine;
     DeltaDatasetSource_load := DeltaDatasetSource_load engine;
     _infer_schema := fun _ => Raise unsupported;
     Schema_to_dict := Schema_to_dict engine;
     countApprox := countApprox engine;
     json_dumps := json_dumps engine |}.

Definition source : DatasetSource :=
  SparkDatasetSource (Some "/data/xy") None None.

(** [SparkDataset(xy, source, targets)] as [__init__] leaves it. *)
Definition dataset (targets : option string) : SparkDataset :=
  Dataset_init xy targets source None None.

Definition base_dict : gmap string string :=
  {[ "name" := "dataset"; "digest" := "abc123";
     "source" := "{}"; "source_type" := "spark" ]}.

End Sample.

(** ** What the properties speak about *)

(** The exception of looking up [_warning] on the logger. *)
Definition no_warning_attribute : Exn :=
  AttributeError "'Logger' object has no attribute '_warning'".

(** The frame after one call of the inference utility. *)
Definition after_inference (fr : Frame) : Frame :=
  {| self := self fr; trace := trace fr ++ [CallInferSchema] |}.

Definition is_inference_call (ev : Event) : bool :=
  match ev with CallInferSchema => true | _ => false end.

(** How many times the inference utility has been called. *)
Definition inference_calls (tr : Trace) : nat :=
  length (filter (fun ev => is_inference_call ev = true) tr).

Definition is_log_record (ev : Event) : bool :=
  match ev with LogRecord _ _ => true | _ => false end.

(** How many records have been logged. *)
Definition records_logged (tr : Trace) : nat :=
  length (filter (fun ev => is_log_record ev = true) tr).

(** The exception of calling [to_dict] on [None]. *)
Definition no_to_dict_attribute : Exn :=
  AttributeError "'NoneType' object has no attribute 'to_dict'".

(** The frame after the approximate count of [profile]. *)
Definition after_count (fr : Frame) : Frame :=
  {| self := self fr; trace := trace fr ++ [CallCountApprox 1000 90] |}.

(** The two fields [_to_dict] writes. *)
Definition schema_field (E : Externals) (s : Schema) : string :=
  json_dumps E (JDict [("mlflow_colspec", Schema_to_dict E s)]).

Definition profile_field (E : Externals) (df : Spark.DataFrame) : string :=
  json_dumps E (JDict [("approx_count", JInt (countApprox E df 1000 90))]).

Create HintDb py.
#[local] Hint Unfold bind ret raise lift emit modify gets
  call_is_delta_table_path call_is_delta_table call_latest_version_from_path
  call_latest_version_from_table_name call_load version_or : py.

(** Run the monadic code of a factory on the trace at hand. *)
Ltac run_py := repeat progress (autounfold with py; simpl).

(** Finish after the last step, the call of the constructor. *)
Ltac finish_init :=
  rewrite <- ?app_assoc; simpl;
  by destruct (SparkDataset_init _ _ _ _ _).

(** The configurations of the source arguments that [from_spark] rejects:
    not exactly one of path, table name and query; a version with a query;
    a version with a path or table that is not a Delta table. *)
Definition not_delta (E : Externals) (path table_name : option string) : Prop :=
  match path, table_name with
  | Some p, _ => _is_delta_table_path E p = false
  | None, Some t => _is_delta_table E t = false
  | None, None => False
  end.

Definition source_args_rejected (E : Externals)
    (path table_name version sql : option string) : Prop :=
  count_None [path; table_name; sql] ≠ 2
  \/ (sql ≠ None /\ version ≠ None)
  \/ (version ≠ None /\ not_delta E path table_name).

Definition targets_missing (df : Spark.DataFrame) (targets : option string)
    : Prop :=
  exists t, targets = Some t /\ t ∉ Spark.columns df.

(** Modelled from the spec: the constructors of [SparkDatasetSource] and
    [DeltaDatasetSource] are not among the sources.  The spec has a generic
    source identified by exactly one of path, table name and query text, and
    a versioned-table source by exactly one of path and table name. *)
Definition source_well_formed (source : DatasetSource) : Prop :=
  match source with
  | SparkDatasetSource path table_name sql =>
      count_None [path; table_name; sql] = 2
  | DeltaDatasetSource path table_name _ => count_None [path; table_name] = 1
  end.

(** The version [load_delta] works with: the caller's, or the latest one
    looked up by path or by table name. *)
Definition resolved_version (E : Externals)
    (path table_name version : option string) : option string :=
  match version, path with
  | Some v, _ => Some v
  | None, Some p => _try_get_delta_table_latest_version_from_path E p
  | None, None =>
      _try_get_delta_table_latest_version_from_table_name E table_name
  end.

(** The lookups [load_delta] makes for that. *)
Definition version_lookups (path table_name version : option string)
    : Trace :=
  match version, path with
  | Some v, _ => []
  | None, Some p => [CallLatestVersionFromPath p]
  | None, None => [CallLatestVersionFromTableName table_name]
  end.

(** The name [load_delta] gives the dataset. *)
Definition resolved_name (name table_name version : option string)
    : option string :=
  match name, table_name with
  | None, Some t => Some (default_name t version)
  | _, _ => name
  end.

(** ** Further notions about the dataset *)

(** [n] accesses to [schema] in a row: what each returned or raised, and
    the frame they leave. *)
Fixpoint access_schema (E : Externals) (n : nat) (fr : Frame)
    : list (Res (option Schema)) * Frame :=
  match n with
  | 0 => ([], fr)
  | S k =>
      let '(r, fr1) := schema E fr in
      let '(rs, fr2) := access_schema E k fr1 in
      (r :: rs, fr2)
  end.

(** [n] accesses to [profile] in a row. *)
Fixpoint access_profile (E : Externals) (n : nat) (fr : Frame)
    : list (Res Json) * Frame :=
  match n with
  | 0 => ([], fr)
  | S k =>
      let '(r, fr1) := profile E fr in
      let '(rs, fr2) := access_profile E k fr1 in
      (r :: rs, fr2)
  end.

(** The targets of an instance, when set, name a column of its dataframe. *)
Definition targets_valid (ds : SparkDataset) : Prop :=
  forall t, _targets ds = Some t -> t ∈ Spark.columns (_df ds).

(** Every row of a table has one cell per column. *)
Definition rectangular (df : Pandas.DataFrame) : Prop :=
  Forall (fun row => length row = length (Pandas.columns df)) (Pandas.rows df).

(** The rows of a table with each cell under its column label. *)
Definition labelled (df : Pandas.DataFrame) : list (list (string * Cell)) :=
  zip (Pandas.columns df) <$> Pandas.rows df.

Definition is_delta_source (source : DatasetSource) : bool :=
  match source with
  | DeltaDatasetSource _ _ _ => true
  | SparkDatasetSource _ _ _ => false
  end.

(** The calls of the Delta utilities, which is all [from_spark] makes. *)
Definition is_delta_utility_call (ev : Event) : bool :=
  match ev with
  | CallIsDeltaTablePath _ | CallIsDeltaTable _
  | CallLatestVersionFromPath _ | CallLatestVersionFromTableName _ => true
  | _ => false
  end.

Definition is_count_call (ev : Event) : bool :=
  match ev with CallCountApprox _ _ => true | _ => false end.

(** How many approximate counts have been made. *)
Definition count_calls (tr : Trace) : nat :=
  length (filter (fun ev => is_count_call ev = true) tr).

(** ** Langchain autologging: [mlflow/langchain/_langchain_autolog.py] *)

Module Autolog.

(** The Python values the helpers handle: inputs, outputs, arguments and
    callbacks of an inference call.  A dictionary has string keys, in
    insertion order; [VDocument] is a langchain [Document]; [VObject] is any
    other object, of which nothing is known but its class: it is true, is
    not iterable and has none of the attributes asked for below. *)
#[local] Unset Elimination Schemes.
Inductive PyVal :=
| VNone
| VInt (n : Z)
| VStr (s : string)
| VList (xs : list PyVal)
| VDict (items : list (string * PyVal))
| VDocument (page_content metadata : PyVal)
| VObject (cls : string).
#[local] Set Elimination Schemes.

(** [type(v).__name__] *)
Definition type_name (v : PyVal) : string :=
  match v with
  | VNone => "NoneType"
  | VInt _ => "int"
  | VStr _ => "str"
  | VList _ => "list"
  | VDict _ => "dict"
  | VDocument _ _ => "Document"
  | VObject cls => cls
  end.

Definition no_attribute (type attr : string) : Exn :=
  AttributeError ("'" +:+ type +:+ "' object has no attribute '" +:+ attr +:+ "'").

Definition not_iterable (v : PyVal) : Exn :=
  OtherException "TypeError" ("'" +:+ type_name v +:+ "' object is not iterable").

(** The truth value of [v]. *)
Definition truthy_val (v : PyVal) : bool :=
  match v with
  | VNone => false
  | VInt n => negb (n =? 0)%Z
  | VStr s => match s with EmptyString => false | _ => true end
  | VList xs => match xs with [] => false | _ => true end
  | VDict items => match items with [] => false | _ => true end
  | VDocument _ _ => true
  | VObject _ => true
  end.

Definition is_str (v : PyVal) : bool :=
  match v with VStr _ => true | _ => false end.

Definition is_dict (v : PyVal) : bool :=
  match v with VDict _ => true | _ => false end.

Definition is_list (v : PyVal) : bool :=
  match v with VList _ => true | _ => false end.

(** [d.get(key)]: [None] when the key is missing. *)
Fixpoint dict_get (d : list (string * PyVal)) (key : string) : PyVal :=
  match d with
  | [] => VNone
  | (k, v) :: rest => if decide (k = key) then v else dict_get rest key
  end.

(** [d[key] = value]: the entry is overwritten in place, or added last. *)
Fixpoint dict_set (d : list (string * PyVal)) (key : string) (value : PyVal)
    : list (string * PyVal) :=
  match d with
  | [] => [(key, value)]
  | (k, v) :: rest =>
      if decide (k = key) then (k, value) :: rest
      else (k, v) :: dict_set rest key value
  end.

(** Sequencing of steps that may raise. *)
Definition and_then {A B} (r : Res A) (k : A -> Res B) : Res B :=
  match r with
  | Ok a => k a
  | Raise e => Raise e
  end.

(** A list comprehension whose element expression may raise: the elements
    are computed in order and the first exception ends it. *)
Fixpoint comprehension {A B} (f : A -> Res B) (xs : list A) : Res (list B) :=
  match xs with
  | [] => Ok []
  | x :: rest =>
      and_then (f x) (fun y =>
      and_then (comprehension f rest) (fun ys => Ok (y :: ys)))
  end.

(** [{"page_content": doc.page_content, "metadata": doc.metadata}] *)
Definition document_to_dict (doc : PyVal) : Res PyVal :=
  match doc with
  | VDocument page_content metadata =>
      Ok (VDict [("page_content", page_content); ("metadata", metadata)])
  | _ => Raise (no_attribute (type_name doc) "page_content")
  end.

(** [[... for doc in output]]: a list yields its elements, a dictionary its
    keys and a string its characters, which are strings; a [Document], as
    every pydantic model, yields pairs of a field name and a value; an
    integer or an unknown object cannot be iterated over. *)
Definition documents_to_dicts (output : PyVal) : Res PyVal :=
  match output with
  | VList docs => and_then (comprehension document_to_dict docs)
                    (fun dicts => Ok (VList dicts))
  | VDict [] | VStr EmptyString => Ok (VList [])
  | VDict (_ :: _) | VStr (String _ _) =>
      Raise (no_attribute "str" "page_content")
  | VDocument _ _ => Raise (no_attribute "tuple" "page_content")
  | VNone | VInt _ | VObject _ => Raise (not_iterable output)
  end.

Definition different_lengths_message : string :=
  "Failed to combine input and output data with different lengths "
  +:+ "into a single pandas DataFrame. ".

Section WithDefaultErrorCode.

(** The error code of an [MlflowException] raised without one: the default
    of the [error_code] parameter in [mlflow/exceptions.py], which is not
    among the sources. *)
Variable default_error_code : ErrorCode.

(** [_combine_input_and_output] *)
Definition _combine_input_and_output (input output session_id : PyVal)
    (func_name : string) : Res (list (string * PyVal)) :=
  and_then
    (if decide (func_name = "get_relevant_documents") then
       match output with
       | VNone => Ok output
       | _ => documents_to_dicts output
       end
     else Ok output)
    (fun output =>
       match input with
       | VNone =>
           Ok [("output",
                if is_list output || is_dict output then output
                else VList [output]);
               ("session_id", session_id)]
       | VStr _ | VDict _ =>
           Ok [("input", VList [input]); ("output", VList [output]);
               ("session_id", session_id)]
       | VList xs =>
           if forallb is_str xs || forallb is_dict xs then
             match output with
             | VList ys =>
                 if decide (length ys ≠ length xs) then
                   Raise (MlflowException different_lengths_message
                            default_error_code)
                 else Ok [("input", input); ("output", output);
                          ("session_id", session_id)]
             | _ => Raise (MlflowException different_lengths_message
                             default_error_code)
             end
           else Raise (MlflowException "Unsupported input type."
                         default_error_code)
       | _ => Raise (MlflowException "Unsupported input type."
                       default_error_code)
       end).

End WithDefaultErrorCode.

(** [callbacks = x or []] followed by [callbacks.append(mlflow_callback)]:
    only a list has [append]. *)
Definition or_empty_append (x mlflow_callback : PyVal) : Res PyVal :=
  if truthy_val x then
    match x with
    | VList callbacks => Ok (VList (callbacks ++ [mlflow_callback]))
    | _ => Raise (no_attribute (type_name x) "append")
    end
  else Ok (VList [mlflow_callback]).

(** The [config] of [invoke] with the callback in it: a fresh
    [RunnableConfig(callbacks=[mlflow_callback])], which is a dictionary,
    when there is none; only a dictionary has [get]. *)
Definition config_with_callback (config mlflow_callback : PyVal) : Res PyVal :=
  match config with
  | VNone => Ok (VDict [("callbacks", VList [mlflow_callback])])
  | VDict items =>
      and_then (or_empty_append (dict_get items "callbacks") mlflow_callback)
        (fun callbacks => Ok (VDict (dict_set items "callbacks" callbacks)))
  | _ => Raise (no_attribute (type_name config) "get")
  end.

(** [_inject_mlflow_callback]: the new [(args, kwargs)], or [None] for a
    function name that is none of the three.  Lists and dictionaries are
    values here: what the source appends or assigns in place shows in the
    values returned, and two arguments are never the same object, so that
    none but the place written changes. *)
Definition _inject_mlflow_callback (func_name : string)
    (mlflow_callback : PyVal) (args : list PyVal)
    (kwargs : list (string * PyVal))
    : Res (option (list PyVal * list (string * PyVal))) :=
  if decide (func_name = "invoke") then
    match args with
    | arg0 :: config :: rest =>
        and_then (config_with_callback config mlflow_callback)
          (fun config => Ok (Some ([arg0; config] ++ rest, kwargs)))
    | _ =>
        and_then (config_with_callback (dict_get kwargs "config")
                    mlflow_callback)
          (fun config => Ok (Some (args, dict_set kwargs "config" config)))
    end
  else if decide (func_name = "__call__") then
    match args with
    | arg0 :: arg1 :: callbacks :: rest =>
        and_then (or_empty_append callbacks mlflow_callback)
          (fun callbacks => Ok (Some ([arg0; arg1] ++ [callbacks] ++ rest,
                                      kwargs)))
    | _ =>
        and_then (or_empty_append (dict_get kwargs "callbacks")
                    mlflow_callback)
          (fun callbacks =>
             Ok (Some (args, dict_set kwargs "callbacks" callbacks)))
    end
  else if decide (func_name = "get_relevant_documents") then
    and_then (or_empty_append (dict_get kwargs "callbacks") mlflow_callback)
      (fun callbacks => Ok (Some (args, dict_set kwargs "callbacks" callbacks)))
  else Ok None.

(** A model as [_get_input_data_from_function] sees it: the name of its
    class and, for each attribute that is a method, the names of the
    parameters [inspect.signature] reports for it. *)
Record ModelObject := {
  class_name : string;
  signature : string -> option (list string)
}.

Definition func_param_name_mapping : list (string * string) :=
  [("__call__", "inputs"); ("invoke", "input");
   ("get_relevant_documents", "query")].

(** [func_param_name_mapping.get(func_name)] *)
Definition mapping_get (func_name : string) : option string :=
  (fix get (d : list (string * string)) : option string :=
     match d with
     | [] => None
     | (k, v) :: rest => if decide (k = func_name) then Some v else get rest
     end) func_param_name_mapping.

Definition signature_changed_message : string :=
  "Inference function signature changes, please contact MLflow team to "
  +:+ "fix langchain autologging.".

(** The text of [list(func_param_name_mapping.keys())] inside an f-string. *)
Definition unsupported_function_message : string :=
  "Unsupported inference function. Only support "
  +:+ "['__call__', 'invoke', 'get_relevant_documents']" +:+ ".".

Definition gather_failed_message (model : ModelObject) (reason : string)
    : string :=
  "Failed to gather input example of model " +:+ class_name model +:+ " "
  +:+ "due to " +:+ reason +:+ ".".

(** [_get_input_data_from_function]: the input data, or a warning and
    [None]. *)
Definition _get_input_data_from_function (func_name : string)
    (model : ModelObject) (args : list PyVal) (kwargs : list (string * PyVal))
    : M Trace PyVal :=
  (found <-
     match mapping_get func_name with
     | Some param_name =>
         match signature model func_name with
         | None => raise (no_attribute (class_name model) func_name)
         | Some [] => raise (OtherException "StopIteration" EmptyString)
         | Some (first :: _) =>
             if decide (first ≠ param_name) then
               ret (inl signature_changed_message)
             else
               ret (inr (match args with
                         | arg0 :: _ => arg0
                         | [] => dict_get kwargs param_name
                         end))
         end
     | None => ret (inl unsupported_function_message)
     end ;;
   match found with
   | inr input => ret input
   | inl input_example_exc =>
       emit (LogRecord WARNING (gather_failed_message model input_example_exc)) ;;;
       ret VNone
   end)%py.

(** The langchain models told apart by the [isinstance] tests of
    [_runnable_with_retriever] and [_chain_with_retriever], with the fields
    those functions read: the branches of a [RunnableBranch] are pairs of a
    condition and a runnable. *)
#[local] Unset Elimination Schemes.
Inductive LcModel :=
| RunnableBranch (branches : list (LcModel * LcModel)) (default : LcModel)
| RunnableParallel (steps : list (string * LcModel))
| RunnableSequence (steps : list LcModel)
| RunnableAssign (mapper : LcModel)
| BaseRetriever
| RetrievalQA
| OtherModel (cls : string).
#[local] Set Elimination Schemes.

Definition is_BaseRetriever (model : LcModel) : bool :=
  match model with BaseRetriever => true | _ => false end.

(** [_runnable_with_retriever]; [runnables_importable] tells whether the
    imports under [contextlib.suppress(ImportError)] succeed. *)
Fixpoint _runnable_with_retriever (runnables_importable : bool)
    (model : LcModel) {struct model} : bool :=
  if runnables_importable then
    match model with
    | RunnableBranch branches _ =>
        existsb (fun branch =>
                   _runnable_with_retriever runnables_importable branch.2)
          branches
    | RunnableParallel steps =>
        existsb (fun step =>
                   _runnable_with_retriever runnables_importable step.2)
          steps
    | RunnableSequence steps =>
        existsb (_runnable_with_retriever runnables_importable) steps
    | RunnableAssign mapper =>
        _runnable_with_retriever runnables_importable mapper
    | _ => is_BaseRetriever model
    end
  else is_BaseRetriever model.

(** [_chain_with_retriever]; [chains_importable] likewise. *)
Definition _chain_with_retriever (chains_importable : bool) (model : LcModel)
    : bool :=
  if chains_importable then
    match model with RetrievalQA => true | _ => false end
  else false.

(** Where [_inject_mlflow_callback] puts the callback: the callbacks of
    the call as the patched function will read them. *)
Definition callbacks_of (func_name : string) (args : list PyVal)
    (kwargs : list (string * PyVal)) : PyVal :=
  if decide (func_name = "invoke") then
    match (match args with
           | _ :: config :: _ => config
           | _ => dict_get kwargs "config"
           end) with
    | VDict items => dict_get items "callbacks"
    | _ => VNone
    end
  else if decide (func_name = "__call__") then
    match args with
    | _ :: _ :: callbacks :: _ => callbacks
    | _ => dict_get kwargs "callbacks"
    end
  else dict_get kwargs "callbacks".

(** The callbacks a value stands for: those of a list, none otherwise. *)
Definition callback_list (v : PyVal) : list PyVal :=
  match v with VList callbacks => callbacks | _ => [] end.

(** The positional argument and the keyword that may carry the callbacks or
    the configuration of each patched function. *)
Definition slot_index (func_name : string) : option nat :=
  if decide (func_name = "invoke") then Some 1
  else if decide (func_name = "__call__") then Some 2
  else None.

Definition slot_key (func_name : string) : string :=
  if decide (func_name = "invoke") then "config" else "callbacks".

(** A value in the place of the callbacks that [x or []] followed by
    [append] can take: a false one, or a list. *)
Definition appendable (v : PyVal) : Prop :=
  truthy_val v = true -> is_list v = true.

(** The calls [_inject_mlflow_callback] can serve: the configuration of
    [invoke] is absent, [None] or a dictionary, and the callbacks are
    appendable. *)
Definition injectable (func_name : string) (args : list PyVal)
    (kwargs : list (string * PyVal)) : Prop :=
  if decide (func_name = "invoke") then
    match (match args with
           | _ :: config :: _ => config
           | _ => dict_get kwargs "config"
           end) with
    | VNone => True
    | VDict items => appendable (dict_get items "callbacks")
    | _ => False
    end
  else appendable (callbacks_of func_name args kwargs).

(** The inputs [_combine_input_and_output] accepts for an output that is
    taken as it is. *)
Definition combinable (input output : PyVal) : Prop :=
  match input with
  | VNone | VStr _ | VDict _ => True
  | VList xs =>
      (forallb is_str xs = true \/ forallb is_dict xs = true)
      /\ exists ys, output = VList ys /\ length ys = length xs
  | _ => False
  end.

(** A retriever sits where [_runnable_with_retriever] looks: at the model
    itself, or inside the runnable of a branch, a step of a parallel or of a
    sequence, or the mapper of an assignment. *)
Inductive holds_retriever : LcModel -> Prop :=
| holds_here : holds_retriever BaseRetriever
| holds_branch branches default condition runnable :
    (condition, runnable) ∈ branches -> holds_retriever runnable ->
    holds_retriever (RunnableBranch branches default)
| holds_parallel steps key runnable :
    (key, runnable) ∈ steps -> holds_retriever runnable ->
    holds_retriever (RunnableParallel steps)
| holds_sequence steps runnable :
    runnable ∈ steps -> holds_retriever runnable ->
    holds_retriever (RunnableSequence steps)
| holds_assign mapper :
    holds_retriever mapper -> holds_retriever (RunnableAssign mapper).

End Autolog.

(** * Properties *)

(** ** Construction *)

Lemma SparkDataset_init_None df source name digest :
  SparkDataset_init df source None name digest
  = Ok (Dataset_init df None source name digest).
Proof. reflexivity. Qed.

Lemma SparkDataset_init_present df source t name digest :
  t ∈ Spark.columns df ->
  SparkDataset_init df source (Some t) name digest
  = Ok (Dataset_init df (Some t) source name digest).
Proof. intros Hin. unfold SparkDataset_init. by rewrite decide_True. Qed.

Lemma SparkDataset_init_absent df source t name digest :
  t ∉ Spark.columns df ->
  SparkDataset_init df source (Some t) name digest
  = Raise (MlflowException (missing_targets_message t) INVALID_PARAMETER_VALUE).
Proof. intros Hin. unfold SparkDataset_init. by rewrite decide_False. Qed.

(** The only exception the constructor raises is the invalid-parameter one,
    and a dataset it returns holds the arguments. *)
Lemma SparkDataset_init_cases df source targets name digest :
  (exists t, targets = Some t /\ (t ∉ Spark.columns df) /\
     SparkDataset_init df source targets name digest
     = Raise (MlflowException (missing_targets_message t)
                INVALID_PARAMETER_VALUE))
  \/ ((forall t, targets = Some t -> t ∈ Spark.columns df) /\
      SparkDataset_init df source targets name digest
      = Ok (Dataset_init df targets source name digest)).
Proof.
  destruct targets as [t|]; [|right; split; [discriminate | reflexivity]].
  destruct (decide (t ∈ Spark.columns df)) as [Hin|Hout].
  - right. split; [by intros ? [= <-] | by apply SparkDataset_init_present].
  - left. exists t. repeat split; [done | by apply SparkDataset_init_absent].
Qed.

Lemma init_raises_iff df source targets name digest :
  raises_code INVALID_PARAMETER_VALUE
    (SparkDataset_init df source targets name digest)
  <-> targets_missing df targets.
Proof.
  destruct (SparkDataset_init_cases df source targets name digest)
    as [(t & -> & Hout & ->) | [Hin ->]].
  - split; [intros _; by exists t | intros _; by eexists].
  - split; [intros [m ?]; discriminate |].
    intros (t & -> & Hout). destruct Hout. by apply Hin.
Qed.

Lemma init_ok_iff df source targets name digest :
  is_ok (SparkDataset_init df source targets name digest) = true
  <-> ~ targets_missing df targets.
Proof.
  destruct (SparkDataset_init_cases df source targets name digest)
    as [(t & -> & Hout & ->) | [Hin ->]]; simpl.
  - split; [discriminate | intros H; destruct H; by exists t].
  - split; [|done]. intros _ (t & -> & Hout). apply Hout. by apply Hin.
Qed.

Lemma init_fields df source targets name digest ds :
  SparkDataset_init df source targets name digest = Ok ds ->
  _df ds = df /\ _targets ds = targets /\ _source ds = source
  /\ _name ds = name /\ _digest ds = digest.
Proof.
  destruct (SparkDataset_init_cases df source targets name digest)
    as [(t & _ & _ & ->) | [_ ->]]; [discriminate|]. by intros [= <-].
Qed.

(** C1: constructing a SparkDataset with a non-null [targets] raises the
    invalid-parameter exception exactly when [targets] is not one of the
    dataframe's column names; with [targets] one of the columns, or with
    [targets] null, construction succeeds and the new object holds the
    dataframe, the targets, the source, the name and the digest given. *)
Theorem SparkDataset_init_validates_targets
    (df : Spark.DataFrame) (source : DatasetSource)
    (targets name digest : option string) :
  (raises_code INVALID_PARAMETER_VALUE
     (SparkDataset_init df source targets name digest)
   <-> exists t, targets = Some t /\ t ∉ Spark.columns df)
  /\ (is_ok (SparkDataset_init df source targets name digest) = true
      <-> targets = None \/ exists t, targets = Some t /\ t ∈ Spark.columns df)
  /\ (forall ds, SparkDataset_init df source targets name digest = Ok ds ->
        _df ds = df /\ _targets ds = targets /\ _source ds = source
        /\ _name ds = name /\ _digest ds = digest).
Proof.
  split; [apply init_raises_iff|]. split; [|apply init_fields].
  rewrite init_ok_iff. unfold targets_missing. split.
  - intros Hok. destruct targets as [t|]; [right | by left].
    exists t. split; [done|].
    destruct (decide (t ∈ Spark.columns df)); [done|].
    destruct Hok. by exists t.
  - intros [-> | (t & -> & Hin)] (t' & Heq & Hout); [discriminate|].
    injection Heq as <-. contradiction.
Qed.

(** ** Conversion to pyfunc inputs and outputs *)

Lemma materialize_columns ds :
  Pandas.columns (materialize ds) = Spark.columns (_df ds).
Proof. reflexivity. Qed.

Lemma materialize_rows ds :
  Pandas.rows (materialize ds) = take 10000 (Spark.rows (_df ds)).
Proof. reflexivity. Qed.

Lemma materialize_nrows ds :
  Pandas.nrows (materialize ds) = length (Spark.rows (_df ds)) `min` 10000.
Proof.
  unfold Pandas.nrows. rewrite materialize_rows, length_take. apply Nat.min_comm.
Qed.

Lemma drop_present t df :
  t ∈ Pandas.columns df ->
  exists i, Pandas.drop t df = Ok i
    /\ Pandas.columns i = filter (fun c => c ≠ t) (Pandas.columns df)
    /\ Pandas.nrows i = Pandas.nrows df.
Proof.
  intros Hin. unfold Pandas.drop. rewrite decide_True by done.
  eexists. split; [reflexivity|]. split; [reflexivity|].
  unfold Pandas.nrows. simpl. apply length_fmap.
Qed.

Lemma getitem_present t df :
  t ∈ Pandas.columns df ->
  exists o, Pandas.getitem t df = Ok o
    /\ Pandas.columns o = filter (fun c => c = t) (Pandas.columns df)
    /\ Pandas.nrows o = Pandas.nrows df.
Proof.
  intros Hin. unfold Pandas.getitem. rewrite decide_True by done.
  eexists. split; [reflexivity|]. split; [reflexivity|].
  unfold Pandas.nrows. simpl. apply length_fmap.
Qed.

Lemma to_pyfunc_no_targets ds :
  _targets ds = None ->
  to_pyfunc ds = Ok {| inputs := materialize ds; outputs := None |}.
Proof. intros H. unfold to_pyfunc. by rewrite H. Qed.

Lemma to_pyfunc_targets_absent ds t :
  _targets ds = Some t ->
  t ∉ Pandas.columns (materialize ds) ->
  to_pyfunc ds
  = Raise (MlflowException (pyfunc_missing_targets_message t) INTERNAL_ERROR).
Proof. intros H Hout. unfold to_pyfunc. rewrite H. by rewrite decide_False. Qed.

Lemma to_pyfunc_targets_present ds t :
  _targets ds = Some t ->
  t ∈ Pandas.columns (materialize ds) ->
  exists i o,
    to_pyfunc ds = Ok {| inputs := i; outputs := Some o |}
    /\ Pandas.columns i
       = filter (fun c => c ≠ t) (Pandas.columns (materialize ds))
    /\ Pandas.columns o
       = filter (fun c => c = t) (Pandas.columns (materialize ds))
    /\ Pandas.nrows i = Pandas.nrows (materialize ds)
    /\ Pandas.nrows o = Pandas.nrows (materialize ds).
Proof.
  intros H Hin. unfold to_pyfunc. rewrite H, decide_True by done.
  destruct (drop_present _ _ Hin) as (i & -> & Hci & Hni).
  destruct (getitem_present _ _ Hin) as (o & -> & Hco & Hno).
  by exists i, o.
Qed.

(** A dataset that [__init__] built never takes the internal-error branch:
    the column validated at construction is still there after [limit] and
    [toPandas]. *)
Lemma to_pyfunc_after_init df source targets name digest ds :
  SparkDataset_init df source targets name digest = Ok ds ->
  is_ok (to_pyfunc ds) = true.
Proof.
  intros Hinit.
  destruct (SparkDataset_init_cases df source targets name digest)
    as [(t & _ & _ & Hr) | [Hin Hr]]; rewrite Hr in Hinit; [done|].
  injection Hinit as <-. destruct targets as [t|].
  - destruct (to_pyfunc_targets_present (Dataset_init df (Some t) source name digest) t)
      as (i & o & -> & _); [done | by apply Hin | done].
  - by rewrite to_pyfunc_no_targets.
Qed.

(** With the targets among the columns, the two tables [to_pyfunc] returns,
    cell by cell. *)
Lemma to_pyfunc_targets_present_cells ds t :
  _targets ds = Some t ->
  t ∈ Pandas.columns (materialize ds) ->
  to_pyfunc ds
  = Ok {| inputs :=
            {| Pandas.columns :=
                 filter (fun c => c ≠ t) (Pandas.columns (materialize ds));
               Pandas.rows :=
                 (fun row =>
                    (filter (fun lc : string * Cell => lc.1 ≠ t)
                       (zip (Pandas.columns (materialize ds)) row)).*2)
                 <$> Pandas.rows (materialize ds) |};
          outputs :=
            Some {| Pandas.columns :=
                      filter (fun c => c = t) (Pandas.columns (materialize ds));
                    Pandas.rows :=
                      (fun row =>
                         (filter (fun lc : string * Cell => lc.1 = t)
                            (zip (Pandas.columns (materialize ds)) row)).*2)
                      <$> Pandas.rows (materialize ds) |} |}.
Proof.
  intros Ht Hin. unfold to_pyfunc. rewrite Ht, decide_True by done.
  unfold Pandas.drop, Pandas.getitem. rewrite !decide_True by done.
  set (df := materialize ds).
  assert (Hin_rows :
    Pandas.select_cells (fun c => negb (bool_decide (c = t)))
      (Pandas.columns df) <$> Pandas.rows df
    = (fun row =>
         (filter (fun lc : string * Cell => lc.1 ≠ t)
            (zip (Pandas.columns df) row)).*2) <$> Pandas.rows df).
  { apply list_fmap_ext. intros _ row _.
    unfold Pandas.select_cells. f_equal. apply list_filter_iff. intros lc.
    by rewrite negb_true_iff, bool_decide_eq_false. }
  assert (Hout_rows :
    Pandas.select_cells (fun c => bool_decide (c = t))
      (Pandas.columns df) <$> Pandas.rows df
    = (fun row =>
         (filter (fun lc : string * Cell => lc.1 = t)
            (zip (Pandas.columns df) row)).*2) <$> Pandas.rows df).
  { apply list_fmap_ext. intros _ row _.
    unfold Pandas.select_cells. f_equal. apply list_filter_iff. intros lc.
    by rewrite bool_decide_eq_true. }
  by rewrite Hin_rows, Hout_rows.
Qed.

(** C2: [to_pyfunc] on the materialized table.  With [targets] set and the
    target column absent from the materialized table it raises an
    internal-error exception.  With [targets] set and the column present it
    returns as inputs all columns except the target and as outputs the target
    column alone: the labels of the inputs are the labels other than the
    target, each row of the inputs is the cells of the materialized row that
    stand under those labels, the outputs carry the target label only, each
    row of the outputs is the cells of the materialized row under the target
    label, and both have as many rows as the materialized table.  With
    [targets] unset it returns the whole materialized table as inputs and
    [None] as outputs. *)
Theorem to_pyfunc_splits_on_targets (ds : SparkDataset) :
  match _targets ds with
  | Some t =>
      if decide (t ∈ Pandas.columns (materialize ds)) then
        exists i o,
          to_pyfunc ds = Ok {| inputs := i; outputs := Some o |}
          /\ Pandas.columns i
             = filter (fun c => c ≠ t) (Pandas.columns (materialize ds))
          /\ (t ∉ Pandas.columns i)
          /\ Pandas.rows i
             = (fun row =>
                  (filter (fun lc : string * Cell => lc.1 ≠ t)
                     (zip (Pandas.columns (materialize ds)) row)).*2)
               <$> Pandas.rows (materialize ds)
          /\ Pandas.columns o
             = filter (fun c => c = t) (Pandas.columns (materialize ds))
          /\ t ∈ Pandas.columns o
          /\ (forall c, c ∈ Pandas.columns o -> c = t)
          /\ Pandas.rows o
             = (fun row =>
                  (filter (fun lc : string * Cell => lc.1 = t)
                     (zip (Pandas.columns (materialize ds)) row)).*2)
               <$> Pandas.rows (materialize ds)
          /\ Pandas.nrows i = Pandas.nrows (materialize ds)
          /\ Pandas.nrows o = Pandas.nrows (materialize ds)
      else
        to_pyfunc ds
        = Raise (MlflowException (pyfunc_missing_targets_message t)
                   INTERNAL_ERROR)
  | None => to_pyfunc ds = Ok {| inputs := materialize ds; outputs := None |}
  end.
Proof.
  destruct (_targets ds) as [t|] eqn:Ht; [|by apply to_pyfunc_no_targets].
  case_decide as Hin; [|by apply to_pyfunc_targets_absent].
  eexists _, _.
  split; [exact (to_pyfunc_targets_present_cells ds t Ht Hin)|].
  simpl. repeat split.
  - rewrite list_elem_of_filter. by intros [? _].
  - by rewrite list_elem_of_filter.
  - intros c. rewrite list_elem_of_filter. by intros [? _].
  - unfold Pandas.nrows. simpl. apply length_fmap.
  - unfold Pandas.nrows. simpl. apply length_fmap.
Qed.

(** C3: [to_pyfunc] works on the first 10,000 rows of the dataframe in the
    engine's order: the rows kept are a prefix of the dataframe's rows,
    min(n, 10000) of an n-row dataframe, and the rows after them are
    dropped without an error.  Without targets it returns those rows as the
    inputs; with targets among the columns it returns, for each of those
    rows and in their order, the cells outside the target column as the
    inputs and the cells of the target column as the outputs, so that inputs
    and outputs have min(n, 10000) rows, 10,000 for a dataframe of 15,000.
    It returns nothing only when the targets name no column. *)
Theorem to_pyfunc_row_cap (ds : SparkDataset) :
  let n := length (Spark.rows (_df ds)) in
  let kept := take 10000 (Spark.rows (_df ds)) in
  let labels := Spark.columns (_df ds) in
  kept `prefix_of` Spark.rows (_df ds)
  /\ length kept = n `min` 10000
  /\ match _targets ds with
     | None =>
         exists io,
           to_pyfunc ds = Ok io
           /\ Pandas.rows (inputs io) = kept
           /\ outputs io = None
           /\ Pandas.nrows (inputs io) = n `min` 10000
           /\ (n = 15000 -> Pandas.nrows (inputs io) = 10000)
     | Some t =>
         if decide (t ∈ labels) then
           exists i o,
             to_pyfunc ds = Ok {| inputs := i; outputs := Some o |}
             /\ Pandas.rows i
                = (fun row =>
                     (filter (fun lc : string * Cell => lc.1 ≠ t)
                        (zip labels row)).*2) <$> kept
             /\ Pandas.rows o
                = (fun row =>
                     (filter (fun lc : string * Cell => lc.1 = t)
                        (zip labels row)).*2) <$> kept
             /\ Pandas.nrows i = n `min` 10000
             /\ Pandas.nrows o = n `min` 10000
             /\ (n = 15000 ->
                 Pandas.nrows i = 10000 /\ Pandas.nrows o = 10000)
         else
           to_pyfunc ds
           = Raise (MlflowException (pyfunc_missing_targets_message t)
                      INTERNAL_ERROR)
     end.
Proof.
  intros n kept labels. subst n kept labels.
  assert (Hlen : length (take 10000 (Spark.rows (_df ds)))
                 = length (Spark.rows (_df ds)) `min` 10000)
    by (rewrite length_take; apply Nat.min_comm).
  assert (Hcap : length (Spark.rows (_df ds)) = 15000 ->
                 length (Spark.rows (_df ds)) `min` 10000 = 10000)
    by (intros ->; reflexivity).
  split; [apply prefix_take|]. split; [exact Hlen|].
  destruct (_targets ds) as [t|] eqn:Ht.
  - case_decide as Hin; [|by apply to_pyfunc_targets_absent].
    eexists _, _.
    split; [exact (to_pyfunc_targets_present_cells ds t Ht Hin)|].
    split; [reflexivity|]. split; [reflexivity|].
    unfold Pandas.nrows. cbn [Pandas.rows].
    rewrite !length_fmap, materialize_rows, Hlen. repeat split; auto.
  - eexists. split; [exact (to_pyfunc_no_targets ds Ht)|].
    split; [reflexivity|]. split; [reflexivity|].
    unfold Pandas.nrows. cbn [inputs].
    rewrite materialize_rows, Hlen. split; auto.
Qed.

(** ** The schema property *)

Lemma inference_calls_snoc tr :
  inference_calls (tr ++ [CallInferSchema]) = S (inference_calls tr).
Proof.
  unfold inference_calls. rewrite filter_app, length_app.
  rewrite filter_cons_True, filter_nil by done. simpl. lia.
Qed.

Lemma records_logged_snoc_call tr :
  records_logged (tr ++ [CallInferSchema]) = records_logged tr.
Proof.
  unfold records_logged. rewrite filter_app, length_app.
  rewrite filter_cons_False, filter_nil by done. simpl. lia.
Qed.

Lemma Logger_has_no__warning :
  Logger_getattr "_warning" = Raise no_warning_attribute.
Proof. reflexivity. Qed.

Lemma schema_cached E fr v :
  schema_entry (self fr) = Some v -> schema E fr = (Ok v, fr).
Proof.
  intros H. unfold schema, cached_property, bind, gets. by rewrite H.
Qed.

Lemma schema_first_success E fr s :
  schema_entry (self fr) = None ->
  _infer_schema E (_df (self fr)) = Ok s ->
  schema E fr = (Ok (Some s), set_schema_entry (Some s) (after_inference fr)).
Proof.
  intros Hc Hi.
  unfold schema, cached_property, bind, gets. rewrite Hc.
  unfold schema_func, try_except, call_infer_schema, bind, emit_in, modify,
    gets, lift, ret. simpl. by rewrite Hi.
Qed.

Lemma schema_first_failure E fr e :
  schema_entry (self fr) = None ->
  _infer_schema E (_df (self fr)) = Raise e ->
  schema E fr = (Raise no_warning_attribute, after_inference fr).
Proof.
  intros Hc Hi.
  unfold schema, cached_property, bind, gets. rewrite Hc.
  unfold schema_func, try_except, call_infer_schema, bind, emit_in, modify,
    gets, lift, ret. simpl. by rewrite Hi.
Qed.

(** An access that returns leaves its value in the instance dictionary. *)
Lemma schema_return_stores E fr v fr' :
  schema E fr = (Ok v, fr') -> schema_entry (self fr') = Some v.
Proof.
  destruct (schema_entry (self fr)) as [w|] eqn:Hc.
  - rewrite (schema_cached E fr w Hc). by intros [= <- <-].
  - destruct (_infer_schema E (_df (self fr))) as [s|e] eqn:Hi.
    + rewrite (schema_first_success E fr s Hc Hi). by intros [= <- <-].
    + by rewrite (schema_first_failure E fr e Hc Hi).
Qed.

(** Once an access has returned, every later access returns the same value
    and touches neither the instance nor the trace, whatever the inference
    utility would now answer. *)
Lemma schema_memoized_after_return E E' fr v fr' :
  schema E fr = (Ok v, fr') -> schema E' fr' = (Ok v, fr').
Proof. intros H. apply schema_cached. by apply (schema_return_stores E fr). Qed.

(** C4: what the first access to [schema] does when the inference utility
    raises: the handler looks up [_warning] on the logger, which is not a
    method of [logging.Logger], so the access raises [AttributeError]; no
    warning is logged, no null is returned and nothing is stored. *)
Theorem schema_inference_failure_propagates
    (E : Externals) (fr : Frame) (e : Exn) :
  schema_entry (self fr) = None ->
  _infer_schema E (_df (self fr)) = Raise e ->
  schema E fr = (Raise no_warning_attribute, after_inference fr)
  /\ records_logged (trace (after_inference fr)) = records_logged (trace fr)
  /\ schema_entry (self (after_inference fr)) = None.
Proof.
  intros Hc Hi. split; [by apply (schema_first_failure E fr e)|].
  split; [apply records_logged_snoc_call | done].
Qed.

(** C5: a failed first access is not memoized: the second access calls the
    inference utility again (two calls in all) and raises again. *)
Theorem schema_failure_is_not_memoized
    (E : Externals) (fr : Frame) (e : Exn) :
  schema_entry (self fr) = None ->
  _infer_schema E (_df (self fr)) = Raise e ->
  exists fr1 fr2,
    schema E fr = (Raise no_warning_attribute, fr1)
    /\ schema E fr1 = (Raise no_warning_attribute, fr2)
    /\ trace fr2 = trace fr ++ [CallInferSchema; CallInferSchema]
    /\ inference_calls (trace fr2) = 2 + inference_calls (trace fr)
    /\ schema_entry (self fr2) = None.
Proof.
  intros Hc Hi.
  exists (after_inference fr), (after_inference (after_inference fr)).
  split; [by apply (schema_first_failure E fr e)|].
  split; [by apply (schema_first_failure E _ e)|].
  split; [simpl; by rewrite <- app_assoc|].
  split; [|done].
  unfold after_inference; simpl. by rewrite !inference_calls_snoc.
Qed.

(** ** Serialization *)

Lemma profile_eq E fr :
  profile E fr
  = (Ok (JDict [("approx_count", JInt (countApprox E (_df (self fr)) 1000 90))]),
     after_count fr).
Proof. reflexivity. Qed.

(** With a schema at hand (stored by an earlier access), [_to_dict] returns
    [base_dict] with the two fields written over it. *)
Lemma to_dict_with_schema E fr base_dict s :
  schema_entry (self fr) = Some (Some s) ->
  _to_dict E base_dict fr
  = (Ok (<["profile" := profile_field E (_df (self fr))]>
           (<["schema" := schema_field E s]> base_dict)),
     after_count fr).
Proof.
  intros Hc. unfold _to_dict, bind. by rewrite (schema_cached E fr _ Hc).
Qed.

(** The same on first access, when inference succeeds. *)
Lemma to_dict_inferring_schema E fr base_dict s :
  schema_entry (self fr) = None ->
  _infer_schema E (_df (self fr)) = Ok s ->
  _to_dict E base_dict fr
  = (Ok (<["profile" := profile_field E (_df (self fr))]>
           (<["schema" := schema_field E s]> base_dict)),
     after_count (set_schema_entry (Some s) (after_inference fr))).
Proof.
  intros Hc Hi. unfold _to_dict, bind.
  by rewrite (schema_first_success E fr s Hc Hi).
Qed.

(** The fields of [base_dict] other than the two written are kept. *)
Lemma to_dict_keeps_base E fr base_dict d fr' k :
  _to_dict E base_dict fr = (Ok d, fr') ->
  k ≠ "schema" -> k ≠ "profile" -> d !! k = base_dict !! k.
Proof.
  unfold _to_dict, bind. intros H Hs Hp.
  destruct (schema E fr) as [[v|e] fr1]; [|done].
  destruct v as [s|]; simpl in H; [|done].
  injection H as <- _. by rewrite !lookup_insert_ne.
Qed.

(** C8: serialization of a dataset without a schema.  When the schema is
    null (the entry stored for the property is [None]) [_to_dict] raises
    [AttributeError] from calling [to_dict] on it, and when inference fails
    on first access it raises the [AttributeError] of the schema property;
    in neither case is a mapping returned. *)
Theorem to_dict_fails_without_schema
    (E : Externals) (fr : Frame) (base_dict : gmap string string) :
  (schema_entry (self fr) = Some None ->
   _to_dict E base_dict fr = (Raise no_to_dict_attribute, fr))
  /\ (forall e, schema_entry (self fr) = None ->
        _infer_schema E (_df (self fr)) = Raise e ->
        _to_dict E base_dict fr
        = (Raise no_warning_attribute, after_inference fr)).
Proof.
  split.
  - intros Hc. unfold _to_dict, bind. by rewrite (schema_cached E fr _ Hc).
  - intros e Hc Hi. unfold _to_dict, bind.
    by rewrite (schema_first_failure E fr e Hc Hi).
Qed.

(** ** The factories *)

Lemma from_spark_sql E df q targets name digest tr :
  from_spark E df None None None (Some q) targets name digest tr
  = (SparkDataset_init df (SparkDatasetSource None None (Some q))
       targets name digest, tr).
Proof. unfold from_spark. run_py. finish_init. Qed.

Lemma from_spark_path_delta E df p version targets name digest tr :
  _is_delta_table_path E p = true ->
  from_spark E df (Some p) None version None targets name digest tr
  = (SparkDataset_init df
       (DeltaDatasetSource (Some p) None
          (if truthy version then version
           else _try_get_delta_table_latest_version_from_path E p))
       targets name digest,
     tr ++ CallIsDeltaTablePath p
        :: (if truthy version then [] else [CallLatestVersionFromPath p])).
Proof.
  intros Hd. unfold from_spark.
  destruct version as [[|c v]|]; run_py; rewrite Hd; run_py; finish_init.
Qed.

Lemma from_spark_path_plain E df p targets name digest tr :
  _is_delta_table_path E p = false ->
  from_spark E df (Some p) None None None targets name digest tr
  = (SparkDataset_init df (SparkDatasetSource (Some p) None None)
       targets name digest,
     tr ++ [CallIsDeltaTablePath p]).
Proof. intros Hd. unfold from_spark. run_py. rewrite Hd. run_py. finish_init. Qed.

Lemma from_spark_path_version_not_delta E df p v targets name digest tr :
  _is_delta_table_path E p = false ->
  from_spark E df (Some p) None (Some v) None targets name digest tr
  = (Raise (MlflowException (version_not_delta_path_message v p)
              INVALID_PARAMETER_VALUE),
     tr ++ [CallIsDeltaTablePath p]).
Proof. intros Hd. unfold from_spark. run_py. by rewrite Hd. Qed.

Lemma from_spark_table_delta E df t version targets name digest tr :
  _is_delta_table E t = true ->
  from_spark E df None (Some t) version None targets name digest tr
  = (SparkDataset_init df
       (DeltaDatasetSource None (Some t)
          (if truthy version then version
           else _try_get_delta_table_latest_version_from_table_name E (Some t)))
       targets name digest,
     tr ++ CallIsDeltaTable t
        :: (if truthy version then []
            else [CallLatestVersionFromTableName (Some t)])).
Proof.
  intros Hd. unfold from_spark.
  destruct version as [[|c v]|]; run_py; rewrite Hd; run_py; finish_init.
Qed.

Lemma from_spark_table_plain E df t targets name digest tr :
  _is_delta_table E t = false ->
  from_spark E df None (Some t) None None targets name digest tr
  = (SparkDataset_init df (SparkDatasetSource None (Some t) None)
       targets name digest,
     tr ++ [CallIsDeltaTable t]).
Proof. intros Hd. unfold from_spark. run_py. rewrite Hd. run_py. finish_init. Qed.

Lemma from_spark_table_version_not_delta E df t v targets name digest tr :
  _is_delta_table E t = false ->
  from_spark E df None (Some t) (Some v) None targets name digest tr
  = (Raise (MlflowException (version_not_delta_table_message v t)
              INVALID_PARAMETER_VALUE),
     tr ++ [CallIsDeltaTable t]).
Proof. intros Hd. unfold from_spark. run_py. by rewrite Hd. Qed.

Lemma from_spark_not_exactly_one E df path table_name version sql
    targets name digest tr :
  count_None [path; table_name; sql] ≠ 2 ->
  from_spark E df path table_name version sql targets name digest tr
  = (Raise (MlflowException exactly_one_of_three_message
              INVALID_PARAMETER_VALUE), tr).
Proof. intros H. unfold from_spark. by rewrite decide_True. Qed.

Lemma from_spark_version_with_sql E df path table_name v q
    targets name digest tr :
  count_None [path; table_name; Some q] = 2 ->
  from_spark E df path table_name (Some v) (Some q) targets name digest tr
  = (Raise (MlflowException version_with_sql_message
              INVALID_PARAMETER_VALUE), tr).
Proof.
  intros H. unfold from_spark. rewrite decide_False by (rewrite H; auto).
  by rewrite decide_True.
Qed.

(** Exactly one of three is given. *)
Lemma count_None_three {A} (a b c : option A) :
  count_None [a; b; c] = 2 <->
  (exists x, a = Some x /\ b = None /\ c = None)
  \/ (exists x, a = None /\ b = Some x /\ c = None)
  \/ (exists x, a = None /\ b = None /\ c = Some x).
Proof.
  destruct a, b, c; cbn; split; intros H; try discriminate H; eauto 8;
    destruct H as [(? & ? & ? & ?) | [(? & ? & ? & ?) | (? & ? & ? & ?)]];
    discriminate.
Qed.

(** Exactly one of two is given. *)
Lemma count_None_two {A} (a b : option A) :
  count_None [a; b] = 1 <->
  (exists x, a = Some x /\ b = None) \/ (exists x, a = None /\ b = Some x).
Proof.
  destruct a, b; cbn; split; intros H; try discriminate H; eauto 6;
    destruct H as [(? & ? & ?) | (? & ? & ?)]; discriminate.
Qed.

(** Every source [from_spark] builds has exactly one specifier. *)
Lemma from_spark_source_well_formed E df path table_name version sql
    targets name digest tr ds tr' :
  from_spark E df path table_name version sql targets name digest tr
  = (Ok ds, tr') ->
  source_well_formed (_source ds).
Proof.
  intros Hrun.
  destruct (decide (count_None [path; table_name; sql] = 2)) as [H2|H2];
    [|by rewrite from_spark_not_exactly_one in Hrun].
  apply count_None_three in H2
    as [(p & -> & -> & ->) | [(t & -> & -> & ->) | (q & -> & -> & ->)]].
  - destruct (_is_delta_table_path E p) eqn:Hd.
    + rewrite from_spark_path_delta in Hrun by done.
      injection Hrun as Hinit _.
      by apply init_fields in Hinit as (_ & _ & -> & _).
    + destruct version as [v|];
        [by rewrite from_spark_path_version_not_delta in Hrun|].
      rewrite from_spark_path_plain in Hrun by done.
      injection Hrun as Hinit _.
      by apply init_fields in Hinit as (_ & _ & -> & _).
  - destruct (_is_delta_table E t) eqn:Hd.
    + rewrite from_spark_table_delta in Hrun by done.
      injection Hrun as Hinit _.
      by apply init_fields in Hinit as (_ & _ & -> & _).
    + destruct version as [v|];
        [by rewrite from_spark_table_version_not_delta in Hrun|].
      rewrite from_spark_table_plain in Hrun by done.
      injection Hrun as Hinit _.
      by apply init_fields in Hinit as (_ & _ & -> & _).
  - destruct version as [v|];
      [by rewrite from_spark_version_with_sql in Hrun|].
    rewrite from_spark_sql in Hrun. injection Hrun as Hinit _.
    by apply init_fields in Hinit as (_ & _ & -> & _).
Qed.

(** C6, amended: [from_spark] raises the invalid-parameter exception exactly
    when the source arguments are rejected (not exactly one of path, table
    name and query given; version together with a query; version together
    with a path or table name that is not a Delta table) or [targets] is
    given and is not a column of the dataframe; in every other configuration
    it returns a dataset holding the dataframe and the arguments. *)
Theorem from_spark_raises_exactly
    (E : Externals) (df : Spark.DataFrame)
    (path table_name version sql targets name digest : option string)
    (tr : Trace) :
  let r :=
    (from_spark E df path table_name version sql targets name digest tr).1 in
  (raises_code INVALID_PARAMETER_VALUE r
   <-> source_args_rejected E path table_name version sql
       \/ targets_missing df targets)
  /\ (is_ok r = true
      <-> ~ (source_args_rejected E path table_name version sql
             \/ targets_missing df targets))
  /\ (forall ds, r = Ok ds ->
        _df ds = df /\ _targets ds = targets
        /\ _name ds = name /\ _digest ds = digest).
Proof.
  assert (Hraise : forall m : string,
    raises_code INVALID_PARAMETER_VALUE
      (Raise (MlflowException m INVALID_PARAMETER_VALUE) : Res SparkDataset))
    by (intros m; by exists m).
  assert (Hinit : forall source,
    ~ source_args_rejected E path table_name version sql ->
    let r := SparkDataset_init df source targets name digest in
    (raises_code INVALID_PARAMETER_VALUE r
     <-> source_args_rejected E path table_name version sql
         \/ targets_missing df targets)
    /\ (is_ok r = true
        <-> ~ (source_args_rejected E path table_name version sql
               \/ targets_missing df targets))
    /\ (forall ds, r = Ok ds ->
          _df ds = df /\ _targets ds = targets
          /\ _name ds = name /\ _digest ds = digest)).
  { intros source Hacc r. subst r.
    rewrite init_raises_iff, init_ok_iff.
    split; [tauto|]. split; [tauto|].
    intros ds Hds. apply init_fields in Hds. tauto. }
  assert (Hrej : forall m : string,
    source_args_rejected E path table_name version sql ->
    let r : Res SparkDataset :=
      Raise (MlflowException m INVALID_PARAMETER_VALUE) in
    (raises_code INVALID_PARAMETER_VALUE r
     <-> source_args_rejected E path table_name version sql
         \/ targets_missing df targets)
    /\ (is_ok r = true
        <-> ~ (source_args_rejected E path table_name version sql
               \/ targets_missing df targets))
    /\ (forall ds, r = Ok ds ->
          _df ds = df /\ _targets ds = targets
          /\ _name ds = name /\ _digest ds = digest)).
  { intros m Hr r. subst r. split; [split; auto|].
    split; [simpl; split; [discriminate | tauto] | discriminate]. }
  destruct (decide (count_None [path; table_name; sql] = 2)) as [H2|H2];
    [|rewrite from_spark_not_exactly_one by done; apply Hrej; by left].
  apply count_None_three in H2
    as [(p & -> & -> & ->) | [(t & -> & -> & ->) | (q & -> & -> & ->)]].
  - destruct (_is_delta_table_path E p) eqn:Hd.
    + rewrite from_spark_path_delta by done. apply Hinit.
      intros [H | [[H _] | [_ H]]]; simpl in H; [by apply H | done | congruence].
    + destruct version as [v|].
      * rewrite from_spark_path_version_not_delta by done. apply Hrej.
        right; right. by split.
      * rewrite from_spark_path_plain by done. apply Hinit.
        intros [H | [[H _] | [H _]]]; simpl in H; [by apply H | done | done].
  - destruct (_is_delta_table E t) eqn:Hd.
    + rewrite from_spark_table_delta by done. apply Hinit.
      intros [H | [[H _] | [_ H]]]; simpl in H; [by apply H | done | congruence].
    + destruct version as [v|].
      * rewrite from_spark_table_version_not_delta by done. apply Hrej.
        right; right. by split.
      * rewrite from_spark_table_plain by done. apply Hinit.
        intros [H | [[H _] | [H _]]]; simpl in H; [by apply H | done | done].
  - destruct version as [v|].
    + rewrite from_spark_version_with_sql by done. apply Hrej.
      right; left. by split.
    + rewrite from_spark_sql. apply Hinit.
      intros [H | [[_ H] | [H _]]]; simpl in H; [by apply H | done | done].
Qed.

Lemma load_delta_not_exactly_one E path table_name version targets name
    digest tr :
  count_None [path; table_name] ≠ 1 ->
  load_delta E path table_name version targets name digest tr
  = (Raise (MlflowException exactly_one_of_two_message
              INVALID_PARAMETER_VALUE), tr).
Proof. intros H. unfold load_delta. by rewrite decide_True. Qed.

Lemma load_delta_exactly_one E path table_name version targets name
    digest tr :
  count_None [path; table_name] = 1 ->
  let v := resolved_version E path table_name version in
  let source := DeltaDatasetSource path table_name v in
  load_delta E path table_name version targets name digest tr
  = (match DeltaDatasetSource_load E source with
     | Ok df =>
         SparkDataset_init df source targets
           (resolved_name name table_name v) digest
     | Raise e => Raise e
     end,
     tr ++ version_lookups path table_name version ++ [CallLoad source]).
Proof.
  intros H v source. subst v source. unfold load_delta.
  rewrite decide_False by (rewrite H; auto). clear H.
  destruct version as [v|], path as [p|]; run_py;
    rewrite <- ?app_assoc; simpl;
    match goal with
    | |- context [DeltaDatasetSource_load E ?s] =>
        destruct (DeltaDatasetSource_load E s)
    end; simpl; try done;
    match goal with
    | |- context [SparkDataset_init ?a ?b ?c ?d ?e] =>
        destruct (SparkDataset_init a b c d e)
    end; by rewrite ?app_nil_r.
Qed.

(** So has the source [load_delta] builds. *)
Lemma load_delta_source_well_formed E path table_name version targets name
    digest tr ds tr' :
  load_delta E path table_name version targets name digest tr = (Ok ds, tr') ->
  source_well_formed (_source ds).
Proof.
  intros Hrun.
  destruct (decide (count_None [path; table_name] = 1)) as [H1|H1];
    [|by rewrite load_delta_not_exactly_one in Hrun].
  rewrite load_delta_exactly_one in Hrun by done.
  injection Hrun as Hinit _.
  destruct (DeltaDatasetSource_load E _) as [loaded|e]; [|done].
  by apply init_fields in Hinit as (_ & _ & -> & _).
Qed.

Lemma default_name_no_version t : default_name t None = t.
Proof.
  unfold default_name. induction t as [|c t IH]; [done|].
  change (String c (t +:+ EmptyString) = String c t). by rewrite IH.
Qed.

(** C7, amended: [load_delta] raises the invalid-parameter exception about
    the source exactly when neither or both of path and table name are
    given, and then calls nothing.  With exactly one given it takes the
    caller's version or else looks up the latest, names the dataset after
    the table name followed by v and the version when no name is given, and
    loads the dataframe from the Delta source; it returns the dataset unless
    the load raises or [targets] is not a column of the loaded dataframe,
    which is an invalid-parameter exception too. *)
Theorem load_delta_exactly_one_source
    (E : Externals)
    (path table_name version targets name digest : option string)
    (tr : Trace) :
  let out := load_delta E path table_name version targets name digest tr in
  let v := resolved_version E path table_name version in
  let source := DeltaDatasetSource path table_name v in
  (count_None [path; table_name] ≠ 1
   <-> out = (Raise (MlflowException exactly_one_of_two_message
                       INVALID_PARAMETER_VALUE), tr))
  /\ (count_None [path; table_name] = 1 ->
      out.2 = tr ++ version_lookups path table_name version ++ [CallLoad source]
      /\ (forall e, DeltaDatasetSource_load E source = Raise e ->
            out.1 = Raise e)
      /\ (forall df, DeltaDatasetSource_load E source = Ok df ->
            ~ targets_missing df targets ->
            out.1 = Ok (Dataset_init df targets source
                          (resolved_name name table_name v) digest))
      /\ (forall df t, DeltaDatasetSource_load E source = Ok df ->
            targets = Some t -> t ∉ Spark.columns df ->
            out.1 = Raise (MlflowException (missing_targets_message t)
                             INVALID_PARAMETER_VALUE)))
  /\ (forall v0, version = Some v0 -> v = Some v0)
  /\ (forall p, version = None -> path = Some p ->
        v = _try_get_delta_table_latest_version_from_path E p)
  /\ (version = None -> path = None ->
        v = _try_get_delta_table_latest_version_from_table_name E table_name)
  /\ (forall t, name = None -> table_name = Some t ->
        resolved_name name table_name v
        = Some (match v with Some v1 => t +:+ "v" +:+ v1 | None => t end))
  /\ (name <> None \/ table_name = None ->
        resolved_name name table_name v = name).
Proof.
  intros out v source. subst out.
  split; [|split; [|repeat split]].
  - split; [apply load_delta_not_exactly_one|].
    intros Heq Hone. rewrite load_delta_exactly_one in Heq by done.
    injection Heq as _ Htr.
    rewrite <- (app_nil_r tr) in Htr at 2. apply app_inv_head in Htr.
    by destruct (version_lookups path table_name version).
  - intros Hone. rewrite load_delta_exactly_one by done. fold v source. simpl.
    split; [done|]. split; [by intros e ->|]. split.
    + intros df -> Hok.
      destruct (SparkDataset_init_cases df source targets
                  (resolved_name name table_name v) digest)
        as [(t & ? & ? & _) | [_ ->]]; [|done].
      destruct Hok. by exists t.
    + intros df t -> -> Hout. by apply SparkDataset_init_absent.
  - by intros v0 ->.
  - by intros p -> ->.
  - by intros -> ->.
  - intros t -> ->. unfold resolved_name. destruct v; [done|].
    by rewrite default_name_no_version.
  - intros [Hn | ->]; unfold resolved_name; destruct name; done.
Qed.

(** C9, amended: when errors about the arguments are raised.  The
    exactly-one-source errors of [load_delta] and [from_spark] and the
    version-with-query error of [from_spark] leave the trace as it was: no
    call has been made.  The error for a version given with a path or table
    that is not a Delta table comes after one call, the Delta check of that
    path or table, and before any version lookup.  The missing-targets error
    comes from the constructor, which calls nothing itself; in [load_delta]
    that is after the load. *)
Theorem invalid_parameter_timing
    (E : Externals) (df : Spark.DataFrame)
    (path table_name version sql targets name digest : option string)
    (tr : Trace) :
  (count_None [path; table_name] ≠ 1 ->
   load_delta E path table_name version targets name digest tr
   = (Raise (MlflowException exactly_one_of_two_message
               INVALID_PARAMETER_VALUE), tr))
  /\ (count_None [path; table_name; sql] ≠ 2 ->
      from_spark E df path table_name version sql targets name digest tr
      = (Raise (MlflowException exactly_one_of_three_message
                  INVALID_PARAMETER_VALUE), tr))
  /\ (count_None [path; table_name; sql] = 2 ->
      sql ≠ None -> version ≠ None ->
      from_spark E df path table_name version sql targets name digest tr
      = (Raise (MlflowException version_with_sql_message
                  INVALID_PARAMETER_VALUE), tr))
  /\ (forall p v, path = Some p -> table_name = None -> sql = None ->
        version = Some v -> _is_delta_table_path E p = false ->
        from_spark E df path table_name version sql targets name digest tr
        = (Raise (MlflowException (version_not_delta_path_message v p)
                    INVALID_PARAMETER_VALUE),
           tr ++ [CallIsDeltaTablePath p]))
  /\ (forall t v, path = None -> table_name = Some t -> sql = None ->
        version = Some v -> _is_delta_table E t = false ->
        from_spark E df path table_name version sql targets name digest tr
        = (Raise (MlflowException (version_not_delta_table_message v t)
                    INVALID_PARAMETER_VALUE),
           tr ++ [CallIsDeltaTable t]))
  /\ (forall loaded t,
        count_None [path; table_name] = 1 ->
        let source :=
          DeltaDatasetSource path table_name
            (resolved_version E path table_name version) in
        DeltaDatasetSource_load E source = Ok loaded ->
        targets = Some t -> t ∉ Spark.columns loaded ->
        load_delta E path table_name version targets name digest tr
        = (Raise (MlflowException (missing_targets_message t)
                    INVALID_PARAMETER_VALUE),
           tr ++ version_lookups path table_name version ++ [CallLoad source])).
Proof.
  split; [apply load_delta_not_exactly_one|].
  split; [apply from_spark_not_exactly_one|].
  split; [|split; [|split]].
  - intros H2 Hq Hv. destruct sql as [q|]; [|done].
    destruct version as [v|]; [|done].
    by apply from_spark_version_with_sql.
  - intros p v -> -> -> -> Hd. by apply from_spark_path_version_not_delta.
  - intros t v -> -> -> -> Hd. by apply from_spark_table_version_not_delta.
  - intros loaded t Hone source Hload -> Hout.
    rewrite load_delta_exactly_one by done. fold source. rewrite Hload.
    by rewrite SparkDataset_init_absent.
Qed.

(** C10: what [from_spark] does with the empty string as version and a
    path or table name recognized as a Delta table.  The string is not null,
    yet [version or ...] takes it as no version: after the Delta check the
    latest version is looked up, and the Delta source handed to the
    constructor carries the version looked up, not the caller's string; a
    dataset returned has that source. *)
Theorem from_spark_empty_version_is_looked_up
    (E : Externals) (df : Spark.DataFrame)
    (targets name digest : option string) (tr : Trace) :
  (forall p, _is_delta_table_path E p = true ->
     let latest := _try_get_delta_table_latest_version_from_path E p in
     let out :=
       from_spark E df (Some p) None (Some EmptyString) None targets name
         digest tr in
     out = (SparkDataset_init df (DeltaDatasetSource (Some p) None latest)
              targets name digest,
            tr ++ [CallIsDeltaTablePath p; CallLatestVersionFromPath p])
     /\ (forall ds, out.1 = Ok ds ->
           _source ds = DeltaDatasetSource (Some p) None latest))
  /\ (forall t, _is_delta_table E t = true ->
        let latest :=
          _try_get_delta_table_latest_version_from_table_name E (Some t) in
        let out :=
          from_spark E df None (Some t) (Some EmptyString) None targets name
            digest tr in
        out = (SparkDataset_init df (DeltaDatasetSource None (Some t) latest)
                 targets name digest,
               tr ++ [CallIsDeltaTable t;
                      CallLatestVersionFromTableName (Some t)])
        /\ (forall ds, out.1 = Ok ds ->
              _source ds = DeltaDatasetSource None (Some t) latest)).
Proof.
  split.
  - intros p Hd latest out. subst latest out.
    rewrite from_spark_path_delta by done. simpl. split; [done|].
    intros ds Hds. by apply init_fields in Hds as (_ & _ & ? & _).
  - intros t Hd latest out. subst latest out.
    rewrite from_spark_table_delta by done. simpl. split; [done|].
    intros ds Hds. by apply init_fields in Hds as (_ & _ & ? & _).
Qed.

(** With a version that is a non-empty string and a path or table name
    recognized as a Delta table, [from_spark] makes one call, the Delta
    check, and no version lookup, and hands the constructor a Delta source
    carrying exactly the caller's version; a dataset it returns has that
    source. *)
Theorem from_spark_keeps_nonempty_version
    (E : Externals) (df : Spark.DataFrame) (v : string)
    (targets name digest : option string) (tr : Trace) :
  v ≠ EmptyString ->
  (forall p, _is_delta_table_path E p = true ->
     let source := DeltaDatasetSource (Some p) None (Some v) in
     let out :=
       from_spark E df (Some p) None (Some v) None targets name digest tr in
     out = (SparkDataset_init df source targets name digest,
            tr ++ [CallIsDeltaTablePath p])
     /\ (~ targets_missing df targets -> is_ok out.1 = true)
     /\ (forall ds, out.1 = Ok ds -> _source ds = source))
  /\ (forall t, _is_delta_table E t = true ->
        let source := DeltaDatasetSource None (Some t) (Some v) in
        let out :=
          from_spark E df None (Some t) (Some v) None targets name digest tr in
        out = (SparkDataset_init df source targets name digest,
               tr ++ [CallIsDeltaTable t])
        /\ (~ targets_missing df targets -> is_ok out.1 = true)
        /\ (forall ds, out.1 = Ok ds -> _source ds = source)).
Proof.
  intros Hv.
  assert (Ht : truthy (Some v) = true) by (by destruct v).
  split.
  - intros p Hd source out. subst out.
    rewrite from_spark_path_delta by done. rewrite Ht. fold source. simpl.
    split; [done|]. split; [by apply init_ok_iff|].
    intros ds Hds. by apply init_fields in Hds as (_ & _ & ? & _).
  - intros t Hd source out. subst out.
    rewrite from_spark_table_delta by done. rewrite Ht. fold source. simpl.
    split; [done|]. split; [by apply init_ok_iff|].
    intros ds Hds. by apply init_fields in Hds as (_ & _ & ? & _).
Qed.

(** ** The properties on the sample inputs *)

Example init_with_column_y :
  SparkDataset_init Sample.xy Sample.source (Some "y") None None
  = Ok (Sample.dataset (Some "y")).
Proof. reflexivity. Qed.

Example init_with_unknown_column :
  SparkDataset_init Sample.xy Sample.source (Some "z") None None
  = Raise (MlflowException
             "The specified Spark dataset does not contain the specified targets column 'z'."
             INVALID_PARAMETER_VALUE).
Proof. reflexivity. Qed.

(** Five rows, no targets: all columns as inputs, no outputs. *)
Example to_pyfunc_xy_no_targets :
  to_pyfunc (Sample.dataset None)
  = Ok {| inputs := Spark.toPandas Sample.xy; outputs := None |}.
Proof. reflexivity. Qed.

(** Five rows, targets [y]: the inputs are column [x], the outputs are
    column [y], five rows each. *)
Example to_pyfunc_xy_targets_y :
  to_pyfunc (Sample.dataset (Some "y"))
  = Ok {| inputs :=
            {| Pandas.columns := ["x"];
               Pandas.rows := [[CInt 1]; [CInt 2]; [CInt 3]; [CInt 4]; [CInt 5]] |};
          outputs :=
            Some {| Pandas.columns := ["y"];
                    Pandas.rows := [[CInt 10]; [CInt 20]; [CInt 30];
                                    [CInt 40]; [CInt 50]] |} |}.
Proof. reflexivity. Qed.

(** An instance whose targets attribute names no column of its dataframe. *)
Example to_pyfunc_xy_targets_absent :
  to_pyfunc (Dataset_init Sample.xy (Some "z") Sample.source None None)
  = Raise (MlflowException (pyfunc_missing_targets_message "z") INTERNAL_ERROR).
Proof. reflexivity. Qed.

(** 15,000 rows in, 10,000 rows out. *)
Example to_pyfunc_15000_rows :
  (fun r => match r with
            | Ok io => Some (Pandas.nrows (inputs io))
            | Raise _ => None
            end)
    (to_pyfunc (Dataset_init (Sample.tall 15000) None Sample.source None None))
  = Some 10000.
Proof. vm_compute. reflexivity. Qed.

(** With a schema, [_to_dict] writes the two JSON fields over [base_dict]. *)
Example to_dict_xy :
  (_to_dict Sample.engine Sample.base_dict
     {| self := Sample.dataset None; trace := [] |}).1
  = Ok (<["profile" := "{" +:+ Sample.quote +:+ "approx_count" +:+ Sample.quote
                       +:+ ": 5}"]>
          (<["schema" :=
               json_dumps Sample.engine
                 (JDict [("mlflow_colspec",
                          JList [JDict [("type", JStr "long"); ("name", JStr "x")];
                                 JDict [("type", JStr "long"); ("name", JStr "y")]])])]>
             Sample.base_dict)).
Proof. vm_compute. reflexivity. Qed.

(** [load_delta] by table name, version and name left out. *)
Example load_delta_events :
  load_delta Sample.engine None (Some "events") None (Some "y") None None []
  = (Ok (Dataset_init Sample.xy (Some "y")
           (DeltaDatasetSource None (Some "events") (Some "7"))
           (Some "eventsv7") None),
     [CallLatestVersionFromTableName (Some "events");
      CallLoad (DeltaDatasetSource None (Some "events") (Some "7"))]).
Proof. reflexivity. Qed.

(** C4, on the sample dataset with an engine whose inference raises. *)
Lemma schema_inference_failure_propagates_witness :
  let fr := {| self := Sample.dataset None; trace := [] |} in
  (schema_entry (self fr) = None
   /\ _infer_schema Sample.engine_no_schema (_df (self fr))
      = Raise Sample.unsupported)
  /\ schema Sample.engine_no_schema fr
     = (Raise no_warning_attribute,
        {| self := Sample.dataset None; trace := [CallInferSchema] |}).
Proof.
  split; [split; reflexivity|].
  apply (schema_inference_failure_propagates Sample.engine_no_schema
           {| self := Sample.dataset None; trace := [] |} Sample.unsupported);
    reflexivity.
Defined.

(** C5, on the same input: two accesses, two calls of the inference. *)
Lemma schema_failure_is_not_memoized_witness :
  let fr := {| self := Sample.dataset None; trace := [] |} in
  (schema_entry (self fr) = None
   /\ _infer_schema Sample.engine_no_schema (_df (self fr))
      = Raise Sample.unsupported)
  /\ exists fr1 fr2,
       schema Sample.engine_no_schema fr = (Raise no_warning_attribute, fr1)
       /\ schema Sample.engine_no_schema fr1 = (Raise no_warning_attribute, fr2)
       /\ trace fr2 = [CallInferSchema; CallInferSchema].
Proof.
  split; [split; reflexivity|].
  destruct (schema_failure_is_not_memoized Sample.engine_no_schema
              {| self := Sample.dataset None; trace := [] |} Sample.unsupported
              eq_refl eq_refl)
    as (fr1 & fr2 & H1 & H2 & H3 & _).
  exists fr1, fr2. split; [exact H1 | split; [exact H2 | exact H3]].
Defined.

(** C6: a call with a plain path, no version and a [targets] that is not a
    column raises the invalid-parameter exception although the source
    arguments are in none of the three rejected configurations. *)
Lemma from_spark_missing_targets_counterexample :
  let out :=
    from_spark Sample.engine Sample.xy (Some "/data/xy") None None None
      (Some "z") None None [] in
  raises_code INVALID_PARAMETER_VALUE out.1
  /\ ~ source_args_rejected Sample.engine (Some "/data/xy") None None None.
Proof.
  split.
  - exists (missing_targets_message "z"). reflexivity.
  - intros [H | [[H _] | [H _]]]; [by apply H | done | done].
Qed.

(** C7: with exactly one of path and table name given, [load_delta] still
    raises the invalid-parameter exception when [targets] is not a column of
    the loaded dataframe. *)
Lemma load_delta_missing_targets_counterexample :
  let out :=
    load_delta Sample.engine (Some "/delta/events") None None (Some "z")
      None None [] in
  count_None [Some "/delta/events"; None] = 1
  /\ raises_code INVALID_PARAMETER_VALUE out.1.
Proof.
  split; [reflexivity|]. exists (missing_targets_message "z"). reflexivity.
Qed.

(** C7, on the sample engine. *)
Lemma load_delta_exactly_one_source_witness :
  count_None [None; Some "events"] = 1
  /\ (load_delta Sample.engine None (Some "events") None (Some "y") None
        None []).1
     = Ok (Dataset_init Sample.xy (Some "y")
             (DeltaDatasetSource None (Some "events") (Some "7"))
             (Some "eventsv7") None).
Proof.
  split; [reflexivity|].
  destruct (load_delta_exactly_one_source Sample.engine None (Some "events")
              None (Some "y") None None []) as (_ & H & _).
  destruct (H eq_refl) as (_ & _ & Hok & _).
  apply (Hok Sample.xy eq_refl).
  intros (t & Ht & Hout). injection Ht as <-. apply Hout.
  vm_compute. apply list_elem_of_further, list_elem_of_here.
Defined.

(** C8, on the sample dataset with an engine whose inference raises. *)
Lemma to_dict_fails_without_schema_witness :
  let fr := {| self := Sample.dataset None; trace := [] |} in
  (schema_entry (self fr) = None
   /\ _infer_schema Sample.engine_no_schema (_df (self fr))
      = Raise Sample.unsupported)
  /\ _to_dict Sample.engine_no_schema Sample.base_dict fr
     = (Raise no_warning_attribute,
        {| self := Sample.dataset None; trace := [CallInferSchema] |}).
Proof.
  split; [split; reflexivity|].
  apply (proj2 (to_dict_fails_without_schema Sample.engine_no_schema
                  {| self := Sample.dataset None; trace := [] |}
                  Sample.base_dict) Sample.unsupported);
    reflexivity.
Defined.

(** C9: the error for a version given with a path that is not a Delta table
    is raised after a call of the Delta check. *)
Lemma from_spark_version_error_counterexample :
  from_spark Sample.engine Sample.xy (Some "/data/xy") None (Some "3") None
    None None None []
  = (Raise (MlflowException (version_not_delta_path_message "3" "/data/xy")
              INVALID_PARAMETER_VALUE),
     [CallIsDeltaTablePath "/data/xy"])
  /\ [CallIsDeltaTablePath "/data/xy"] ≠ [].
Proof. split; [reflexivity | discriminate]. Qed.

(** C9, on the sample engine: no call before the exactly-one error. *)
Lemma invalid_parameter_timing_witness :
  count_None [Some "/data/xy"; Some "events"; None] ≠ 2
  /\ from_spark Sample.engine Sample.xy (Some "/data/xy") (Some "events")
       None None None None None []
     = (Raise (MlflowException exactly_one_of_three_message
                 INVALID_PARAMETER_VALUE), []).
Proof.
  assert (H : count_None [Some "/data/xy"; Some "events"; None] ≠ 2)
    by (vm_compute; discriminate).
  split; [exact H|].
  destruct (invalid_parameter_timing Sample.engine Sample.xy
              (Some "/data/xy") (Some "events") None None None None None [])
    as (_ & H3 & _).
  exact (H3 H).
Defined.

(** C10, on the sample engine, where the latest version is 7: the source
    carries 7 instead of the caller's empty string, and the lookup is in the
    trace. *)
Lemma from_spark_empty_version_is_looked_up_witness :
  let out :=
    from_spark Sample.engine Sample.xy (Some "/delta/events") None
      (Some EmptyString) None None None None [] in
  _is_delta_table_path Sample.engine "/delta/events" = true
  /\ out
     = (Ok (Dataset_init Sample.xy None
              (DeltaDatasetSource (Some "/delta/events") None (Some "7"))
              None None),
        [CallIsDeltaTablePath "/delta/events";
         CallLatestVersionFromPath "/delta/events"]).
Proof.
  cbv zeta. split; [reflexivity|].
  destruct (from_spark_empty_version_is_looked_up Sample.engine Sample.xy
              None None None []) as [Hp _].
  destruct (Hp "/delta/events" eq_refl) as [Heq _]. exact Heq.
Defined.

(** With the empty string as version, the latest version is looked up and
    the source carries it instead of the caller's string. *)
Lemma from_spark_empty_version_counterexample :
  let out :=
    from_spark Sample.engine Sample.xy (Some "/delta/events") None
      (Some EmptyString) None None None None [] in
  _is_delta_table_path Sample.engine "/delta/events" = true
  /\ (exists ds,
        out.1 = Ok ds
        /\ _source ds = DeltaDatasetSource (Some "/delta/events") None (Some "7")
        /\ _source ds
           ≠ DeltaDatasetSource (Some "/delta/events") None (Some EmptyString))
  /\ CallLatestVersionFromPath "/delta/events" ∈ out.2.
Proof.
  split; [reflexivity|]. split.
  - eexists. split; [reflexivity|]. split; [reflexivity | discriminate].
  - vm_compute. apply list_elem_of_further, list_elem_of_here.
Qed.

(** On the sample engine with version 3. *)
Lemma from_spark_keeps_nonempty_version_witness :
  ("3" ≠ EmptyString
   /\ _is_delta_table_path Sample.engine "/delta/events" = true)
  /\ from_spark Sample.engine Sample.xy (Some "/delta/events") None (Some "3")
       None None None None []
     = (Ok (Dataset_init Sample.xy None
              (DeltaDatasetSource (Some "/delta/events") None (Some "3"))
              None None),
        [CallIsDeltaTablePath "/delta/events"]).
Proof.
  assert (H : "3" ≠ EmptyString) by discriminate.
  split; [split; [exact H | reflexivity]|].
  destruct (from_spark_keeps_nonempty_version Sample.engine Sample.xy "3"
              None None None [] H) as [Hp _].
  destruct (Hp "/delta/events" eq_refl) as [Heq _]. exact Heq.
Defined.

(** * Further properties *)

(** ** The schema property after a first value *)

Lemma access_schema_cached E n fr v :
  schema_entry (self fr) = Some v ->
  access_schema E n fr = (replicate n (Ok v), fr).
Proof.
  intros Hc. induction n as [|n IH]; [done|].
  simpl. by rewrite (schema_cached E fr v Hc), IH.
Qed.

Lemma schema_at_most_one_inference E fr r fr' :
  schema E fr = (r, fr') ->
  inference_calls (trace fr') <= S (inference_calls (trace fr)).
Proof.
  destruct (schema_entry (self fr)) as [w|] eqn:Hc.
  - rewrite (schema_cached E fr w Hc). intros [= _ <-]. lia.
  - destruct (_infer_schema E (_df (self fr))) as [s|e] eqn:Hi.
    + rewrite (schema_first_success E fr s Hc Hi). intros [= _ <-].
      simpl. by rewrite inference_calls_snoc.
    + rewrite (schema_first_failure E fr e Hc Hi). intros [= _ <-].
      simpl. by rewrite inference_calls_snoc.
Qed.

(** X1: once an access to [schema] has returned a value, any number of
    further accesses return that same value, call the inference utility no
    more and leave the instance and the trace as they are, whatever the
    utility would answer by then. *)
Theorem schema_memoized_for_good
    (E E' : Externals) (fr fr' : Frame) (v : option Schema) (n : nat) :
  schema E fr = (Ok v, fr') ->
  access_schema E' n fr' = (replicate n (Ok v), fr')
  /\ inference_calls (trace fr') <= S (inference_calls (trace fr)).
Proof.
  intros Hrun. split.
  - apply access_schema_cached. by apply (schema_return_stores E fr).
  - by apply (schema_at_most_one_inference E fr (Ok v)).
Qed.

Lemma schema_memoized_for_good_witness :
  let fr := {| self := Sample.dataset None; trace := [] |} in
  exists v fr',
    schema Sample.engine fr = (Ok v, fr')
    /\ access_schema Sample.engine_no_schema 3 fr' = ([Ok v; Ok v; Ok v], fr')
    /\ trace fr' = [CallInferSchema].
Proof.
  eexists _, _. split; [reflexivity|].
  split; [|reflexivity].
  apply (schema_memoized_for_good Sample.engine Sample.engine_no_schema
           {| self := Sample.dataset None; trace := [] |} _ _ 3 eq_refl).
Defined.

(** ** Serialization with a schema *)

Lemma count_calls_snoc tr t c :
  count_calls (tr ++ [CallCountApprox t c]) = S (count_calls tr).
Proof.
  unfold count_calls. rewrite filter_app, length_app.
  rewrite filter_cons_True, filter_nil by done. simpl. lia.
Qed.

Lemma count_calls_snoc_inference tr :
  count_calls (tr ++ [CallInferSchema]) = count_calls tr.
Proof.
  unfold count_calls. rewrite filter_app, length_app.
  rewrite filter_cons_False, filter_nil by done. simpl. lia.
Qed.

Lemma inference_calls_snoc_count tr t c :
  inference_calls (tr ++ [CallCountApprox t c]) = inference_calls tr.
Proof.
  unfold inference_calls. rewrite filter_app, length_app.
  rewrite filter_cons_False, filter_nil by done. simpl. lia.
Qed.

(** What a returning [_to_dict] has done: the schema it serialized is the
    one now stored on the instance. *)
Lemma to_dict_return_inv E fr base_dict d fr' :
  _to_dict E base_dict fr = (Ok d, fr') ->
  exists s fr1,
    schema E fr = (Ok (Some s), fr1)
    /\ fr' = after_count fr1
    /\ d = <["profile" := profile_field E (_df (self fr1))]>
             (<["schema" := schema_field E s]> base_dict).
Proof.
  unfold _to_dict, bind. intros H.
  destruct (schema E fr) as [[[s|]|e] fr1] eqn:Hs; simpl in H; try done.
  injection H as <- <-. by exists s, fr1.
Qed.

Lemma schema_keeps_df E fr r fr' :
  schema E fr = (r, fr') -> _df (self fr') = _df (self fr).
Proof.
  destruct (schema_entry (self fr)) as [w|] eqn:Hc.
  - rewrite (schema_cached E fr w Hc). by intros [= _ <-].
  - destruct (_infer_schema E (_df (self fr))) as [s|e] eqn:Hi.
    + rewrite (schema_first_success E fr s Hc Hi). by intros [= _ <-].
    + rewrite (schema_first_failure E fr e Hc Hi). by intros [= _ <-].
Qed.

(** X2: the mapping a successful [_to_dict] returns is [base_dict] with the
    fields [schema] and [profile] written over it: the two fields hold the
    JSON of the column specification under [mlflow_colspec] and of the
    approximate count, every other key keeps the value [base_dict] gave it,
    and no other key appears.  The schema serialized is left stored on the
    instance, and exactly one approximate count has been made. *)
Theorem to_dict_overwrites_two_fields
    (E : Externals) (fr fr' : Frame) (base_dict d : gmap string string) :
  _to_dict E base_dict fr = (Ok d, fr') ->
  exists s,
    schema_entry (self fr') = Some (Some s)
    /\ d !! "schema" = Some (schema_field E s)
    /\ d !! "profile" = Some (profile_field E (_df (self fr)))
    /\ (forall k, k ≠ "schema" -> k ≠ "profile" -> d !! k = base_dict !! k)
    /\ dom d = {["schema"; "profile"]} ∪ dom base_dict
    /\ count_calls (trace fr') = S (count_calls (trace fr))
    /\ inference_calls (trace fr') <= S (inference_calls (trace fr)).
Proof.
  intros H. apply to_dict_return_inv in H as (s & fr1 & Hs & -> & ->).
  pose proof (schema_keeps_df E fr _ fr1 Hs) as Hdf.
  exists s. split; [exact (schema_return_stores E fr (Some s) fr1 Hs)|].
  split; [by rewrite lookup_insert_ne, lookup_insert_eq|].
  split; [by rewrite lookup_insert_eq, Hdf|].
  split; [intros k Hks Hkp; by rewrite !lookup_insert_ne|].
  split; [by rewrite !dom_insert_L, (assoc_L (∪)), (comm_L (∪) {["profile"]})|].
  simpl. rewrite count_calls_snoc, inference_calls_snoc_count.
  split.
  - f_equal. destruct (schema_entry (self fr)) as [w|] eqn:Hc.
    + rewrite (schema_cached E fr w Hc) in Hs. by injection Hs as _ <-.
    + destruct (_infer_schema E (_df (self fr))) as [s'|e] eqn:Hi.
      * rewrite (schema_first_success E fr s' Hc Hi) in Hs.
        injection Hs as _ <-. simpl. by rewrite count_calls_snoc_inference.
      * by rewrite (schema_first_failure E fr e Hc Hi) in Hs.
  - by apply (schema_at_most_one_inference E fr (Ok (Some s))).
Qed.

Lemma to_dict_overwrites_two_fields_witness :
  let fr := {| self := Sample.dataset None; trace := [] |} in
  exists d fr' s,
    _to_dict Sample.engine Sample.base_dict fr = (Ok d, fr')
    /\ schema_entry (self fr') = Some (Some s)
    /\ d !! "name" = Some "dataset"
    /\ dom d = {["schema"; "profile"]} ∪ dom Sample.base_dict.
Proof.
  cbv zeta.
  destruct (_to_dict Sample.engine Sample.base_dict
              {| self := Sample.dataset None; trace := [] |})
    as [[d|e] fr'] eqn:Hrun; [|by vm_compute in Hrun].
  destruct (to_dict_overwrites_two_fields _ _ _ _ _ Hrun)
    as (s & Hs & _ & _ & Hk & Hdom & _).
  exists d, fr', s. split; [reflexivity|]. split; [exact Hs|].
  split; [|exact Hdom]. by rewrite Hk.
Defined.

(** X3: serializing again over the mapping just returned infers no schema
    (the second call reads the stored one): it returns the same mapping up
    to the [profile] field, which is counted anew, and the trace gains one
    approximate count and no inference call. *)
Theorem to_dict_twice
    (E : Externals) (fr fr' : Frame) (base_dict d : gmap string string) :
  _to_dict E base_dict fr = (Ok d, fr') ->
  exists d2,
    _to_dict E d fr' = (Ok d2, after_count fr')
    /\ (forall k, k ≠ "profile" -> d2 !! k = d !! k)
    /\ inference_calls (trace (after_count fr')) = inference_calls (trace fr')
    /\ count_calls (trace (after_count fr')) = S (count_calls (trace fr')).
Proof.
  intros H. apply to_dict_return_inv in H as (s & fr1 & Hs & -> & ->).
  assert (Hc : schema_entry (self (after_count fr1)) = Some (Some s))
    by exact (schema_return_stores E fr (Some s) fr1 Hs).
  rewrite (to_dict_with_schema E _ _ s Hc). eexists. split; [reflexivity|].
  split; [|split; [apply inference_calls_snoc_count | apply count_calls_snoc]].
  intros k Hp. rewrite (lookup_insert_ne _ "profile") by done.
  destruct (decide (k = "schema")) as [->|Hk].
  - by rewrite lookup_insert_eq, lookup_insert_ne, lookup_insert_eq.
  - by rewrite !lookup_insert_ne.
Qed.

Lemma to_dict_twice_witness :
  let fr := {| self := Sample.dataset None; trace := [] |} in
  exists d fr' d2,
    _to_dict Sample.engine Sample.base_dict fr = (Ok d, fr')
    /\ _to_dict Sample.engine d fr' = (Ok d2, after_count fr')
    /\ d2 !! "schema" = d !! "schema".
Proof.
  cbv zeta.
  destruct (_to_dict Sample.engine Sample.base_dict
              {| self := Sample.dataset None; trace := [] |})
    as [[d|e] fr'] eqn:Hrun; [|by vm_compute in Hrun].
  destruct (to_dict_twice _ _ _ _ _ Hrun) as (d2 & H2 & Hk & _).
  exists d, fr', d2. split; [reflexivity|]. split; [exact H2|].
  by apply Hk.
Defined.

(** ** The profile *)

Lemma access_profile_run E n fr :
  exists counts,
    access_profile E n fr
    = (counts, {| self := self fr;
                  trace := trace fr ++ replicate n (CallCountApprox 1000 90) |})
    /\ length counts = n.
Proof.
  revert fr. induction n as [|n IH]; intros fr.
  - exists []. simpl. rewrite app_nil_r. by destruct fr.
  - cbn [access_profile]. rewrite profile_eq.
    destruct (IH (after_count fr)) as (counts & -> & Hlen).
    eexists. split; [simpl; by rewrite <- app_assoc|].
    simpl. by rewrite Hlen.
Qed.

Lemma count_calls_app_replicate n tr t c :
  count_calls (tr ++ replicate n (CallCountApprox t c)) = n + count_calls tr.
Proof.
  revert tr. induction n as [|n IH]; intros tr; simpl;
    [by rewrite app_nil_r|].
  change (tr ++ CallCountApprox t c :: replicate n (CallCountApprox t c))
    with (tr ++ [CallCountApprox t c] ++ replicate n (CallCountApprox t c)).
  rewrite app_assoc, IH, count_calls_snoc. lia.
Qed.

Lemma inference_calls_app_replicate n tr t c :
  inference_calls (tr ++ replicate n (CallCountApprox t c))
  = inference_calls tr.
Proof.
  revert tr. induction n as [|n IH]; intros tr; simpl;
    [by rewrite app_nil_r|].
  change (tr ++ CallCountApprox t c :: replicate n (CallCountApprox t c))
    with (tr ++ [CallCountApprox t c] ++ replicate n (CallCountApprox t c)).
  by rewrite app_assoc, IH, inference_calls_snoc_count.
Qed.

(** X4: the profile is never memoized: [n] accesses in a row make [n]
    approximate counts, each with timeout 1000 and confidence 0.90, return
    [n] profiles and leave the instance, its stored schema included, as it
    was. *)
Theorem profile_counts_on_every_access
    (E : Externals) (n : nat) (fr : Frame) :
  let out := access_profile E n fr in
  length out.1 = n
  /\ Forall (fun r => is_ok r = true) out.1
  /\ self out.2 = self fr
  /\ trace out.2 = trace fr ++ replicate n (CallCountApprox 1000 90)
  /\ count_calls (trace out.2) = n + count_calls (trace fr)
  /\ inference_calls (trace out.2) = inference_calls (trace fr).
Proof.
  cbv zeta. split; [|split].
  - by destruct (access_profile_run E n fr) as (counts & -> & Hlen).
  - revert fr. induction n as [|n IH]; intros fr; [constructor|].
    cbn [access_profile]. rewrite profile_eq.
    specialize (IH (after_count fr)).
    destruct (access_profile E n (after_count fr)). by constructor.
  - destruct (access_profile_run E n fr) as (counts & -> & Hlen). simpl.
    split; [done|]. split; [done|].
    split; [apply count_calls_app_replicate
           | apply inference_calls_app_replicate].
Qed.

(** ** The targets invariant *)

Lemma init_targets_valid df source targets name digest ds :
  SparkDataset_init df source targets name digest = Ok ds -> targets_valid ds.
Proof.
  intros Hinit.
  destruct (SparkDataset_init_cases df source targets name digest)
    as [(t & _ & _ & Hr) | [Hin Hr]]; rewrite Hr in Hinit; [done|].
  injection Hinit as <-. exact Hin.
Qed.

(** A dataset [from_spark] returns comes from the constructor, called on the
    dataframe given. *)
Lemma from_spark_return_inv E df path table_name version sql targets name
    digest tr ds tr' :
  from_spark E df path table_name version sql targets name digest tr
  = (Ok ds, tr') ->
  exists source, SparkDataset_init df source targets name digest = Ok ds.
Proof.
  intros Hrun.
  destruct (decide (count_None [path; table_name; sql] = 2)) as [H2|H2];
    [|by rewrite from_spark_not_exactly_one in Hrun].
  apply count_None_three in H2
    as [(p & -> & -> & ->) | [(t & -> & -> & ->) | (q & -> & -> & ->)]].
  - destruct (_is_delta_table_path E p) eqn:Hd.
    + rewrite from_spark_path_delta in Hrun by done.
      injection Hrun as Hinit _. eauto.
    + destruct version as [v|];
        [by rewrite from_spark_path_version_not_delta in Hrun|].
      rewrite from_spark_path_plain in Hrun by done.
      injection Hrun as Hinit _. eauto.
  - destruct (_is_delta_table E t) eqn:Hd.
    + rewrite from_spark_table_delta in Hrun by done.
      injection Hrun as Hinit _. eauto.
    + destruct version as [v|];
        [by rewrite from_spark_table_version_not_delta in Hrun|].
      rewrite from_spark_table_plain in Hrun by done.
      injection Hrun as Hinit _. eauto.
  - destruct version as [v|];
      [by rewrite from_spark_version_with_sql in Hrun|].
    rewrite from_spark_sql in Hrun. injection Hrun as Hinit _. eauto.
Qed.

(** A dataset [load_delta] returns comes from the constructor, called on the
    dataframe loaded from the dataset's own source. *)
Lemma load_delta_return_inv E path table_name version targets name digest
    tr ds tr' :
  load_delta E path table_name version targets name digest tr = (Ok ds, tr') ->
  exists loaded source name',
    DeltaDatasetSource_load E source = Ok loaded
    /\ SparkDataset_init loaded source targets name' digest = Ok ds.
Proof.
  intros Hrun.
  destruct (decide (count_None [path; table_name] = 1)) as [H1|H1];
    [|by rewrite load_delta_not_exactly_one in Hrun].
  rewrite load_delta_exactly_one in Hrun by done.
  injection Hrun as Hinit _.
  destruct (DeltaDatasetSource_load E _) as [loaded|e] eqn:Hload; [|done].
  eauto.
Qed.

(** X5: every way of making a dataset establishes the targets invariant:
    a dataset returned by the constructor, by [from_spark] or by
    [load_delta] has targets that are unset or name a column of the
    dataframe it holds; [from_spark] holds the dataframe it was given and
    [load_delta] the one loaded from the dataset's own source. *)
Theorem entry_points_establish_targets_valid
    (E : Externals) (df : Spark.DataFrame) (source : DatasetSource)
    (path table_name version sql targets name digest : option string)
    (tr tr' : Trace) (ds : SparkDataset) :
  (SparkDataset_init df source targets name digest = Ok ds ->
   targets_valid ds /\ _df ds = df /\ _targets ds = targets)
  /\ (from_spark E df path table_name version sql targets name digest tr
      = (Ok ds, tr') ->
      targets_valid ds /\ _df ds = df /\ _targets ds = targets)
  /\ (load_delta E path table_name version targets name digest tr
      = (Ok ds, tr') ->
      targets_valid ds /\ DeltaDatasetSource_load E (_source ds) = Ok (_df ds)
      /\ _targets ds = targets).
Proof.
  split; [|split].
  - intros Hinit. split; [by apply init_targets_valid in Hinit|].
    by apply init_fields in Hinit as (? & ? & _).
  - intros Hrun. apply from_spark_return_inv in Hrun as (src & Hinit).
    split; [by apply init_targets_valid in Hinit|].
    by apply init_fields in Hinit as (? & ? & _).
  - intros Hrun.
    apply load_delta_return_inv in Hrun as (loaded & src & name' & Hload & Hinit).
    split; [by apply init_targets_valid in Hinit|].
    by apply init_fields in Hinit as (-> & -> & -> & _).
Qed.

Lemma entry_points_establish_targets_valid_witness :
  let ds :=
    Dataset_init Sample.xy (Some "y")
      (DeltaDatasetSource None (Some "events") (Some "7"))
      (Some "eventsv7") None in
  let tr' :=
    [CallLatestVersionFromTableName (Some "events");
     CallLoad (DeltaDatasetSource None (Some "events") (Some "7"))] in
  load_delta Sample.engine None (Some "events") None (Some "y") None None []
  = (Ok ds, tr')
  /\ targets_valid ds
  /\ _targets ds = Some "y".
Proof.
  cbv zeta. split; [reflexivity|].
  destruct (entry_points_establish_targets_valid Sample.engine Sample.xy
              Sample.source None (Some "events") None None (Some "y") None None
              []
              [CallLatestVersionFromTableName (Some "events");
               CallLoad (DeltaDatasetSource None (Some "events") (Some "7"))]
              (Dataset_init Sample.xy (Some "y")
                 (DeltaDatasetSource None (Some "events") (Some "7"))
                 (Some "eventsv7") None)) as (_ & _ & H).
  destruct (H eq_refl) as (Hv & _ & Ht). split; [exact Hv | exact Ht].
Defined.

(** A dataset with valid targets converts. *)
Lemma to_pyfunc_valid ds :
  targets_valid ds ->
  exists io, to_pyfunc ds = Ok io
    /\ (outputs io = None <-> _targets ds = None).
Proof.
  intros Hv. destruct (_targets ds) as [t|] eqn:Ht.
  - destruct (to_pyfunc_targets_present ds t Ht) as (i & o & -> & _);
      [by apply Hv|].
    eexists. split; [done|]. simpl. split; discriminate.
  - rewrite (to_pyfunc_no_targets ds Ht). eexists. split; done.
Qed.

(** X6: a dataset returned by [from_spark] or by [load_delta] converts to
    pyfunc inputs and outputs without error, so the internal-error branch of
    [to_pyfunc] is never taken for it; the outputs are absent exactly when
    no targets were asked for. *)
Theorem factory_datasets_convert
    (E : Externals) (df : Spark.DataFrame)
    (path table_name version sql targets name digest : option string)
    (tr tr' : Trace) (ds : SparkDataset) :
  (from_spark E df path table_name version sql targets name digest tr
   = (Ok ds, tr')
   \/ load_delta E path table_name version targets name digest tr
      = (Ok ds, tr')) ->
  exists io, to_pyfunc ds = Ok io
    /\ (outputs io = None <-> targets = None).
Proof.
  intros Hrun.
  assert (targets_valid ds /\ _targets ds = targets) as [Hv <-].
  { destruct Hrun as [Hrun | Hrun].
    - apply from_spark_return_inv in Hrun as (src & Hinit).
      split; [by apply init_targets_valid in Hinit|].
      by apply init_fields in Hinit as (_ & ? & _).
    - apply load_delta_return_inv in Hrun as (l & src & n' & _ & Hinit).
      split; [by apply init_targets_valid in Hinit|].
      by apply init_fields in Hinit as (_ & ? & _). }
  by apply to_pyfunc_valid.
Qed.

Lemma factory_datasets_convert_witness :
  let ds :=
    Dataset_init Sample.xy (Some "y")
      (DeltaDatasetSource None (Some "events") (Some "7")) None None in
  let tr' :=
    [CallIsDeltaTable "events";
     CallLatestVersionFromTableName (Some "events")] in
  from_spark Sample.engine Sample.xy None (Some "events") None None
    (Some "y") None None [] = (Ok ds, tr')
  /\ exists io, to_pyfunc ds = Ok io
       /\ (outputs io = None <-> Some "y" = None).
Proof.
  cbv zeta. split; [reflexivity|].
  apply (factory_datasets_convert Sample.engine Sample.xy None
           (Some "events") None None (Some "y") None None []
           [CallIsDeltaTable "events";
            CallLatestVersionFromTableName (Some "events")]).
  left. reflexivity.
Defined.

Lemma method_keeps_attributes_schema E fr r fr' :
  schema E fr = (r, fr') ->
  _df (self fr') = _df (self fr) /\ _targets (self fr') = _targets (self fr)
  /\ _source (self fr') = _source (self fr)
  /\ _name (self fr') = _name (self fr)
  /\ _digest (self fr') = _digest (self fr).
Proof.
  destruct (schema_entry (self fr)) as [w|] eqn:Hc.
  - rewrite (schema_cached E fr w Hc). by intros [= _ <-].
  - destruct (_infer_schema E (_df (self fr))) as [s|e] eqn:Hi.
    + rewrite (schema_first_success E fr s Hc Hi). by intros [= _ <-].
    + rewrite (schema_first_failure E fr e Hc Hi). by intros [= _ <-].
Qed.

Lemma method_keeps_attributes_to_dict E base_dict fr r fr' :
  _to_dict E base_dict fr = (r, fr') ->
  _df (self fr') = _df (self fr) /\ _targets (self fr') = _targets (self fr)
  /\ _source (self fr') = _source (self fr)
  /\ _name (self fr') = _name (self fr)
  /\ _digest (self fr') = _digest (self fr).
Proof.
  unfold _to_dict, bind. intros H.
  destruct (schema E fr) as [[v|e] fr1] eqn:Hs.
  - apply method_keeps_attributes_schema in Hs.
    destruct v as [s|]; simpl in H; injection H as _ <-; exact Hs.
  - apply method_keeps_attributes_schema in Hs. by injection H as _ <-.
Qed.

(** X7: the accesses [schema], [profile] and [_to_dict], whether they return
    or raise, change nothing of an instance but the stored schema: the
    dataframe, targets, source, name and digest stay, so the targets
    invariant is kept and [to_pyfunc] gives afterwards what it gave
    before. *)
Theorem accesses_keep_attributes
    (E : Externals) (fr : Frame) (base_dict : gmap string string) :
  let same (fr' : Frame) :=
    _df (self fr') = _df (self fr) /\ _targets (self fr') = _targets (self fr)
    /\ _source (self fr') = _source (self fr)
    /\ _name (self fr') = _name (self fr)
    /\ _digest (self fr') = _digest (self fr)
    /\ (targets_valid (self fr) -> targets_valid (self fr'))
    /\ to_pyfunc (self fr') = to_pyfunc (self fr) in
  same (schema E fr).2 /\ same (profile E fr).2
  /\ same (_to_dict E base_dict fr).2.
Proof.
  assert (Hsame : forall fr',
    _df (self fr') = _df (self fr) /\ _targets (self fr') = _targets (self fr)
    /\ _source (self fr') = _source (self fr)
    /\ _name (self fr') = _name (self fr)
    /\ _digest (self fr') = _digest (self fr) ->
    _df (self fr') = _df (self fr) /\ _targets (self fr') = _targets (self fr)
    /\ _source (self fr') = _source (self fr)
    /\ _name (self fr') = _name (self fr)
    /\ _digest (self fr') = _digest (self fr)
    /\ (targets_valid (self fr) -> targets_valid (self fr'))
    /\ to_pyfunc (self fr') = to_pyfunc (self fr)).
  { intros fr' (Hdf & Ht & Hs & Hn & Hd). repeat split; try done.
    - unfold targets_valid. by rewrite Hdf, Ht.
    - unfold to_pyfunc, materialize. by rewrite Hdf, Ht. }
  cbv zeta. split; [|split]; apply Hsame.
  - by apply (method_keeps_attributes_schema E fr (schema E fr).1);
      destruct (schema E fr).
  - by rewrite profile_eq.
  - by apply (method_keeps_attributes_to_dict E base_dict fr
                (_to_dict E base_dict fr).1); destruct (_to_dict E base_dict fr).
Qed.

(** ** Conversion: errors, the row cap and the cells *)

(** X8: [to_pyfunc] fails exactly on an instance whose targets name no
    column of its dataframe, and then with the internal-error exception
    about those targets: a [KeyError] of pandas never reaches the caller. *)
Theorem to_pyfunc_fails_only_on_invalid_targets (ds : SparkDataset) :
  (is_ok (to_pyfunc ds) = true <-> targets_valid ds)
  /\ (forall e, to_pyfunc ds = Raise e ->
        exists t, _targets ds = Some t /\ (t ∉ Spark.columns (_df ds))
          /\ e = MlflowException (pyfunc_missing_targets_message t)
                   INTERNAL_ERROR).
Proof.
  destruct (_targets ds) as [t|] eqn:Ht.
  - destruct (decide (t ∈ Pandas.columns (materialize ds))) as [Hin|Hout].
    + destruct (to_pyfunc_targets_present ds t Ht Hin) as (i & o & -> & _).
      split; [|discriminate]. split; [|done].
      intros _ t' Ht'. rewrite Ht in Ht'. by injection Ht' as <-.
    + rewrite (to_pyfunc_targets_absent ds t Ht Hout).
      split; [split; [discriminate|] | intros e [= <-]; by exists t].
      intros Hv. destruct Hout. by apply Hv.
  - rewrite (to_pyfunc_no_targets ds Ht).
    split; [|discriminate]. split; [|done].
    intros _ t' Ht'. by rewrite Ht in Ht'.
Qed.

Lemma limit_small n df :
  length (Spark.rows df) <= n -> Spark.limit n df = df.
Proof.
  intros Hn. unfold Spark.limit. rewrite take_ge by done. by destruct df.
Qed.

(** X9: the row cap loses nothing of a table of at most 10,000 rows, which
    is materialized whole, and of a longer table leaves out exactly the rows
    after the 10,000th: the dataframe's rows are the materialized ones
    followed by the n - 10000 rows left out. *)
Theorem row_cap_leaves_out_the_tail (ds : SparkDataset) :
  let n := length (Spark.rows (_df ds)) in
  Spark.rows (_df ds)
  = Pandas.rows (materialize ds) ++ drop 10000 (Spark.rows (_df ds))
  /\ length (drop 10000 (Spark.rows (_df ds))) = n - 10000
  /\ (n <= 10000 ->
      materialize ds = Spark.toPandas (_df ds)
      /\ (_targets ds = None ->
          to_pyfunc ds
          = Ok {| inputs := Spark.toPandas (_df ds); outputs := None |})).
Proof.
  intros n. subst n.
  split; [by rewrite materialize_rows, take_drop|].
  split; [apply length_drop|].
  intros Hn.
  assert (Hm : materialize ds = Spark.toPandas (_df ds))
    by (unfold materialize; by rewrite limit_small).
  split; [done|]. intros Ht. by rewrite (to_pyfunc_no_targets ds Ht), Hm.
Qed.

Lemma row_cap_leaves_out_the_tail_witness :
  let ds := Sample.dataset None in
  length (Spark.rows (_df ds)) <= 10000
  /\ to_pyfunc ds = Ok {| inputs := Spark.toPandas Sample.xy; outputs := None |}.
Proof.
  assert (H : length (Spark.rows (_df (Sample.dataset None))) <= 10000)
    by (vm_compute; repeat constructor).
  split; [exact H|].
  destruct (row_cap_leaves_out_the_tail (Sample.dataset None)) as (_ & _ & Hs).
  destruct (Hs H) as [_ Hp]. exact (Hp eq_refl).
Defined.

Lemma filter_fst {A B} (P : A -> Prop) `{!∀ x, Decision (P x)}
    (l : list (A * B)) :
  (filter (fun ab => P ab.1) l).*1 = filter P (l.*1).
Proof.
  induction l as [|[a b] l IH]; [done|].
  rewrite fmap_cons. cbn [fst].
  destruct (decide (P a)) as [Hp|Hp].
  - rewrite (filter_cons_True (fun ab : A * B => P ab.1)) by done.
    rewrite fmap_cons, filter_cons_True by done. cbn [fst]. by rewrite IH.
  - rewrite (filter_cons_False (fun ab : A * B => P ab.1)) by done.
    by rewrite filter_cons_False by done.
Qed.

(** The cells [select_cells] keeps, read under the labels kept. *)
Lemma select_cells_labelled (keep : string -> bool) labels row :
  length labels = length row ->
  zip (filter (fun c => keep c = true) labels)
      (Pandas.select_cells keep labels row)
  = filter (fun lc => keep lc.1 = true) (zip labels row).
Proof.
  intros Hlen. unfold Pandas.select_cells.
  rewrite <- (fst_zip labels row) at 1 by lia.
  rewrite <- (filter_fst (fun c => keep c = true)).
  apply zip_fst_snd.
Qed.

Lemma select_cells_length (keep : string -> bool) labels row :
  length labels = length row ->
  length (Pandas.select_cells keep labels row)
  = length (filter (fun c => keep c = true) labels).
Proof.
  intros Hlen. unfold Pandas.select_cells.
  rewrite <- (fst_zip labels row) at 2 by lia.
  rewrite <- (filter_fst (fun c => keep c = true)).
  by rewrite !length_fmap.
Qed.

Lemma materialize_rectangular ds :
  rectangular (Spark.toPandas (_df ds)) -> rectangular (materialize ds).
Proof. unfold rectangular. simpl. apply Forall_take. Qed.

(** X10: on a dataframe whose rows have one cell per column, the split keeps
    every cell under its label.  The inputs and the outputs are again tables
    with one cell per column; each row of the inputs, read under its labels,
    is the materialized row without the cells labelled by the targets, and
    each row of the outputs is the cells labelled by the targets, in the
    order of the columns. *)
Theorem to_pyfunc_keeps_cells_under_labels (ds : SparkDataset) (t : string) :
  _targets ds = Some t ->
  t ∈ Spark.columns (_df ds) ->
  rectangular (Spark.toPandas (_df ds)) ->
  exists i o,
    to_pyfunc ds = Ok {| inputs := i; outputs := Some o |}
    /\ rectangular i /\ rectangular o
    /\ labelled i
       = filter (fun lc => lc.1 ≠ t) <$> labelled (materialize ds)
    /\ labelled o
       = filter (fun lc => lc.1 = t) <$> labelled (materialize ds)
    /\ length (Pandas.columns i) + length (Pandas.columns o)
       = length (Spark.columns (_df ds)).
Proof.
  intros Ht Hin Hrect. apply materialize_rectangular in Hrect.
  unfold to_pyfunc. rewrite Ht, decide_True by done.
  unfold Pandas.drop, Pandas.getitem. rewrite !decide_True by done.
  eexists _, _. split; [reflexivity|].
  set (df := materialize ds) in *.
  assert (Hne : forall l : list string,
    filter (fun c => c ≠ t) l
    = filter (fun c => negb (bool_decide (c = t)) = true) l).
  { intros l. apply list_filter_iff. intros c.
    rewrite negb_true_iff, bool_decide_eq_false. done. }
  assert (Heq : forall l : list string,
    filter (fun c => c = t) l
    = filter (fun c => bool_decide (c = t) = true) l).
  { intros l. apply list_filter_iff. intros c.
    by rewrite bool_decide_eq_true. }
  assert (Hne' : forall l : list (string * Cell),
    filter (fun lc => lc.1 ≠ t) l
    = filter (fun lc => negb (bool_decide (lc.1 = t)) = true) l).
  { intros l. apply list_filter_iff. intros c.
    rewrite negb_true_iff, bool_decide_eq_false. done. }
  assert (Heq' : forall l : list (string * Cell),
    filter (fun lc => lc.1 = t) l
    = filter (fun lc => bool_decide (lc.1 = t) = true) l).
  { intros l. apply list_filter_iff. intros c.
    by rewrite bool_decide_eq_true. }
  unfold rectangular, labelled in *. simpl.
  repeat split.
  - rewrite Forall_fmap. eapply Forall_impl; [exact Hrect|].
    intros row Hrow. simpl. rewrite select_cells_length by done.
    by rewrite Hne.
  - rewrite Forall_fmap. eapply Forall_impl; [exact Hrect|].
    intros row Hrow. simpl. rewrite select_cells_length by done.
    by rewrite Heq.
  - rewrite <- !list_fmap_compose. apply Forall_fmap_ext.
    eapply Forall_impl; [exact Hrect|]. intros row Hrow. simpl.
    by rewrite Hne, select_cells_labelled, Hne'.
  - rewrite <- !list_fmap_compose. apply Forall_fmap_ext.
    eapply Forall_impl; [exact Hrect|]. intros row Hrow. simpl.
    by rewrite Heq, select_cells_labelled, Heq'.
  - rewrite Nat.add_comm. symmetry.
    change (Spark.columns (_df ds)) with (Pandas.columns df).
    generalize (Pandas.columns df). clear. intros l.
    induction l as [|c l IH]; [done|].
    destruct (decide (c = t)) as [->|Hc].
    + rewrite filter_cons_True, filter_cons_False by auto. simpl. lia.
    + rewrite filter_cons_False, filter_cons_True by done. simpl. lia.
Qed.

Lemma to_pyfunc_keeps_cells_under_labels_witness :
  let ds := Sample.dataset (Some "y") in
  (_targets ds = Some "y" /\ rectangular (Spark.toPandas (_df ds)))
  /\ exists i o,
       to_pyfunc ds = Ok {| inputs := i; outputs := Some o |}
       /\ labelled o
          = filter (fun lc => lc.1 = "y") <$> labelled (materialize ds).
Proof.
  assert (Hin : "y" ∈ Spark.columns (_df (Sample.dataset (Some "y"))))
    by (vm_compute; apply list_elem_of_further, list_elem_of_here).
  assert (Hrect : rectangular (Spark.toPandas (_df (Sample.dataset (Some "y")))))
    by (vm_compute; repeat constructor).
  split; [split; [reflexivity | exact Hrect]|].
  destruct (to_pyfunc_keeps_cells_under_labels
              (Sample.dataset (Some "y")) "y" eq_refl Hin Hrect)
    as (i & o & Hr & _ & _ & _ & Ho & _).
  exists i, o. split; [exact Hr | exact Ho].
Defined.

(** ** What the factories call and which source they build *)

(** Every run of [from_spark]: the calls it makes, then either an error or
    the constructor on the source it has built. *)
Lemma from_spark_run E df path table_name version sql targets name digest tr :
  exists (calls : Trace) (r : Res DatasetSource),
    from_spark E df path table_name version sql targets name digest tr
    = (match r with
       | Ok source => SparkDataset_init df source targets name digest
       | Raise e => Raise e
       end, tr ++ calls)
    /\ length calls <= 2
    /\ Forall (fun ev => is_delta_utility_call ev = true) calls
    /\ (sql ≠ None -> calls = [])
    /\ (forall source, r = Ok source ->
          (is_delta_source source = true
           <-> sql = None /\ ~ not_delta E path table_name)
          /\ (forall q, sql = Some q ->
                source = SparkDatasetSource None None (Some q))).
Proof.
  destruct (decide (count_None [path; table_name; sql] = 2)) as [H2|H2].
  2:{ exists [], (Raise (MlflowException exactly_one_of_three_message
                           INVALID_PARAMETER_VALUE)).
      rewrite from_spark_not_exactly_one, app_nil_r by done.
      repeat split; simpl; try done; lia. }
  apply count_None_three in H2
    as [(p & -> & -> & ->) | [(t & -> & -> & ->) | (q & -> & -> & ->)]].
  - destruct (_is_delta_table_path E p) eqn:Hd.
    + eexists _, (Ok _). rewrite from_spark_path_delta by done.
      split; [reflexivity|]. split; [destruct (truthy version); simpl; lia|].
      split; [destruct (truthy version); repeat constructor|].
      split; [done|]. intros src [= <-]. simpl.
      split; [|done]. split; [intros _; split; [done | by rewrite Hd] | done].
    + destruct version as [v|].
      * eexists _, (Raise _).
        rewrite from_spark_path_version_not_delta by done.
        split; [reflexivity|]. split; [simpl; lia|].
        split; [repeat constructor|]. split; done.
      * eexists _, (Ok _). rewrite from_spark_path_plain by done.
        split; [reflexivity|]. split; [simpl; lia|].
        split; [repeat constructor|]. split; [done|].
        intros src [= <-]. simpl. split; [|done].
        split; [done | intros [_ H]; by destruct H].
  - destruct (_is_delta_table E t) eqn:Hd.
    + eexists _, (Ok _). rewrite from_spark_table_delta by done.
      split; [reflexivity|]. split; [destruct (truthy version); simpl; lia|].
      split; [destruct (truthy version); repeat constructor|].
      split; [done|]. intros src [= <-]. simpl.
      split; [|done]. split; [intros _; split; [done | by rewrite Hd] | done].
    + destruct version as [v|].
      * eexists _, (Raise _).
        rewrite from_spark_table_version_not_delta by done.
        split; [reflexivity|]. split; [simpl; lia|].
        split; [repeat constructor|]. split; done.
      * eexists _, (Ok _). rewrite from_spark_table_plain by done.
        split; [reflexivity|]. split; [simpl; lia|].
        split; [repeat constructor|]. split; [done|].
        intros src [= <-]. simpl. split; [|done].
        split; [done | intros [_ H]; by destruct H].
  - destruct version as [v|].
    + exists [], (Raise (MlflowException version_with_sql_message
                           INVALID_PARAMETER_VALUE)).
      rewrite from_spark_version_with_sql, app_nil_r by done.
      repeat split; simpl; try done; lia.
    + exists [], (Ok (SparkDatasetSource None None (Some q))).
      rewrite from_spark_sql, app_nil_r.
      split; [done|]. split; [simpl; lia|]. split; [done|]. split; [done|].
      intros src [= <-]. simpl. split; [|by intros ? [= <-]].
      split; [done | by intros [? _]].
Qed.

(** X11: [from_spark] never touches the data: whatever it returns or raises,
    it adds to the trace at most two calls, all of them calls of the Delta
    utilities (no load, no schema inference, no count), and none at all when
    a query is given. *)
Theorem from_spark_calls_only_delta_utilities
    (E : Externals) (df : Spark.DataFrame)
    (path table_name version sql targets name digest : option string)
    (tr : Trace) :
  exists calls,
    (from_spark E df path table_name version sql targets name digest tr).2
    = tr ++ calls
    /\ length calls <= 2
    /\ Forall (fun ev => is_delta_utility_call ev = true) calls
    /\ (sql ≠ None -> calls = []).
Proof.
  destruct (from_spark_run E df path table_name version sql targets name
              digest tr) as (calls & r & -> & Hlen & Hall & Hsql & _).
  by exists calls.
Qed.

(** X12: the kind of source [from_spark] gives the dataset it returns: a
    Delta source exactly when no query is given and the path or table name
    given is recognized as a Delta table, otherwise a generic Spark source;
    for a query, the source built from that query alone. *)
Theorem from_spark_source_kind
    (E : Externals) (df : Spark.DataFrame)
    (path table_name version sql targets name digest : option string)
    (tr tr' : Trace) (ds : SparkDataset) :
  from_spark E df path table_name version sql targets name digest tr
  = (Ok ds, tr') ->
  (is_delta_source (_source ds) = true
   <-> sql = None /\ ~ not_delta E path table_name)
  /\ (forall q, sql = Some q ->
        _source ds = SparkDatasetSource None None (Some q) /\ tr' = tr).
Proof.
  intros Hrun.
  destruct (from_spark_run E df path table_name version sql targets name
              digest tr) as (calls & r & Heq & _ & _ & Hsql & Hsrc).
  rewrite Heq in Hrun. destruct r as [src|e]; [|done].
  injection Hrun as Hinit <-.
  apply init_fields in Hinit as (_ & _ & -> & _).
  destruct (Hsrc src eq_refl) as [Hkind Hq]. split; [exact Hkind|].
  intros q ->. split; [by apply Hq|].
  rewrite Hsql by done. apply app_nil_r.
Qed.

Lemma from_spark_source_kind_witness :
  let ds :=
    Dataset_init Sample.xy None
      (SparkDatasetSource None None (Some "SELECT * FROM xy")) None None in
  from_spark Sample.engine Sample.xy None None None (Some "SELECT * FROM xy")
    None None None [] = (Ok ds, [])
  /\ (is_delta_source (_source ds) = true
      <-> Some "SELECT * FROM xy" = None
          /\ ~ not_delta Sample.engine None None).
Proof.
  cbv zeta. split; [reflexivity|].
  apply (from_spark_source_kind Sample.engine Sample.xy None None None
           (Some "SELECT * FROM xy") None None None [] []).
  reflexivity.
Defined.

(** X13: the two factories agree on the source of a Delta table.  For the
    same path or table name and the same version, [load_delta] and a
    [from_spark] that builds a Delta source give their datasets the same
    source, provided the version is not the empty string (which only
    [from_spark] replaces by the latest version). *)
Theorem factories_agree_on_delta_source
    (E : Externals) (df : Spark.DataFrame)
    (path table_name version : option string)
    (targets1 name1 digest1 targets2 name2 digest2 : option string)
    (tr1 tr1' tr2 tr2' : Trace) (ds1 ds2 : SparkDataset) :
  version ≠ Some EmptyString ->
  load_delta E path table_name version targets1 name1 digest1 tr1
  = (Ok ds1, tr1') ->
  from_spark E df path table_name version None targets2 name2 digest2 tr2
  = (Ok ds2, tr2') ->
  is_delta_source (_source ds2) = true ->
  _source ds1 = _source ds2.
Proof.
  intros Hv H1 H2 Hdelta.
  destruct (decide (count_None [path; table_name] = 1)) as [Hone|Hone];
    [|by rewrite load_delta_not_exactly_one in H1].
  rewrite load_delta_exactly_one in H1 by done. injection H1 as H1 _.
  destruct (DeltaDatasetSource_load E _) as [loaded|e]; [|done].
  apply init_fields in H1 as (_ & _ & -> & _).
  assert (Htruthy : forall v, version = Some v -> truthy version = true).
  { intros v ->. destruct v; [by destruct Hv | done]. }
  apply count_None_two in Hone as [(p & -> & ->) | (t & -> & ->)].
  - destruct (_is_delta_table_path E p) eqn:Hd.
    + rewrite from_spark_path_delta in H2 by done. injection H2 as H2 _.
      apply init_fields in H2 as (_ & _ & -> & _).
      destruct version as [v|]; [|done].
      by rewrite (Htruthy v eq_refl).
    + destruct version as [v|];
        [by rewrite from_spark_path_version_not_delta in H2|].
      rewrite from_spark_path_plain in H2 by done. injection H2 as H2 _.
      apply init_fields in H2 as (_ & _ & Hs & _). by rewrite Hs in Hdelta.
  - destruct (_is_delta_table E t) eqn:Hd.
    + rewrite from_spark_table_delta in H2 by done. injection H2 as H2 _.
      apply init_fields in H2 as (_ & _ & -> & _).
      destruct version as [v|]; [|done].
      by rewrite (Htruthy v eq_refl).
    + destruct version as [v|];
        [by rewrite from_spark_table_version_not_delta in H2|].
      rewrite from_spark_table_plain in H2 by done. injection H2 as H2 _.
      apply init_fields in H2 as (_ & _ & Hs & _). by rewrite Hs in Hdelta.
Qed.

Lemma factories_agree_on_delta_source_witness :
  let source := DeltaDatasetSource None (Some "events") (Some "7") in
  let ds1 := Dataset_init Sample.xy None source (Some "eventsv7") None in
  let ds2 := Dataset_init Sample.xy None source None None in
  (load_delta Sample.engine None (Some "events") None None None None []
   = (Ok ds1, [CallLatestVersionFromTableName (Some "events"); CallLoad source])
   /\ from_spark Sample.engine Sample.xy None (Some "events") None None None
        None None []
      = (Ok ds2, [CallIsDeltaTable "events";
                  CallLatestVersionFromTableName (Some "events")]))
  /\ _source ds1 = _source ds2.
Proof.
  cbv zeta. split; [split; reflexivity|].
  apply (factories_agree_on_delta_source Sample.engine Sample.xy None
           (Some "events") None None None None None None None
           [] [CallLatestVersionFromTableName (Some "events");
               CallLoad (DeltaDatasetSource None (Some "events") (Some "7"))]
           [] [CallIsDeltaTable "events";
               CallLatestVersionFromTableName (Some "events")]);
    [discriminate | reflexivity | reflexivity | reflexivity].
Defined.

(** With the empty string as version the two sources differ. *)
Example factories_differ_on_empty_version :
  (fun r => match r with (Ok ds, _) => Some (_source ds) | _ => None end)
    (load_delta Sample.engine None (Some "events") (Some EmptyString) None
       None None [])
  = Some (DeltaDatasetSource None (Some "events") (Some EmptyString))
  /\ (fun r => match r with (Ok ds, _) => Some (_source ds) | _ => None end)
       (from_spark Sample.engine Sample.xy None (Some "events")
          (Some EmptyString) None None None None [])
     = Some (DeltaDatasetSource None (Some "events") (Some "7")).
Proof. split; reflexivity. Qed.

(** X14: a source built by either factory has exactly one specifier: a
    Delta source one of path and table name, a generic Spark source one of
    path, table name and query. *)
Theorem factories_build_one_specifier_sources
    (E : Externals) (df : Spark.DataFrame)
    (path table_name version sql targets name digest : option string)
    (tr tr' : Trace) (ds : SparkDataset) :
  (from_spark E df path table_name version sql targets name digest tr
   = (Ok ds, tr')
   \/ load_delta E path table_name version targets name digest tr
      = (Ok ds, tr')) ->
  source_well_formed (_source ds).
Proof.
  intros [Hrun | Hrun].
  - by apply from_spark_source_well_formed in Hrun.
  - by apply load_delta_source_well_formed in Hrun.
Qed.

Lemma factories_build_one_specifier_sources_witness :
  let ds :=
    Dataset_init Sample.xy None
      (SparkDatasetSource (Some "/data/xy") None None) None None in
  from_spark Sample.engine Sample.xy (Some "/data/xy") None None None
    None None None [] = (Ok ds, [CallIsDeltaTablePath "/data/xy"])
  /\ source_well_formed (_source ds).
Proof.
  cbv zeta. split; [reflexivity|].
  apply (factories_build_one_specifier_sources Sample.engine Sample.xy
           (Some "/data/xy") None None None None None None []
           [CallIsDeltaTablePath "/data/xy"]).
  left. reflexivity.
Defined.

(** ** Langchain autologging *)

Import Autolog.

Lemma dict_get_set d key value : dict_get (dict_set d key value) key = value.
Proof.
  induction d as [|[k v] d IH]; simpl.
  - by rewrite decide_True.
  - destruct (decide (k = key)) as [->|Hk]; simpl.
    + by rewrite decide_True.
    + by rewrite decide_False.
Qed.

Lemma dict_get_set_ne d key value key' :
  key' ≠ key -> dict_get (dict_set d key value) key' = dict_get d key'.
Proof.
  intros Hne. induction d as [|[k v] d IH]; simpl.
  - by rewrite decide_False.
  - destruct (decide (k = key)) as [->|Hk]; simpl.
    + by rewrite !decide_False.
    + destruct (decide (k = key')); [done | exact IH].
Qed.

Lemma comprehension_documents docs dicts :
  comprehension document_to_dict docs = Ok dicts
  <-> Forall2 (fun doc dict =>
                 exists page_content metadata,
                   doc = VDocument page_content metadata
                   /\ dict = VDict [("page_content", page_content);
                                    ("metadata", metadata)])
        docs dicts.
Proof.
  revert dicts. induction docs as [|doc docs IH]; intros dicts; simpl.
  - split; [intros [= <-]; constructor | by intros ->%Forall2_nil_inv_l].
  - split.
    + intros H. destruct doc; simpl in H; try done.
      destruct (comprehension document_to_dict docs) as [ds|e] eqn:Hc;
        simpl in H; [|done].
      injection H as <-. constructor; [eauto | by apply IH].
    + intros (dict & ds & (pc & md & -> & ->) & Hrest & ->)%Forall2_cons_inv_l.
      apply IH in Hrest. simpl. by rewrite Hrest.
Qed.

(** X15: the table [_combine_input_and_output] returns.  It always carries
    the session id.  With an input it has the keys [input], [output] and
    [session_id], and the input and the output are lists of the same
    length; without one it has the keys [output] and [session_id], and the
    output is a list or a dictionary. *)
Theorem combine_builds_equal_columns
    (default_error_code : ErrorCode) (input output session_id : PyVal)
    (func_name : string) (table : list (string * PyVal)) :
  _combine_input_and_output default_error_code input output session_id
    func_name = Ok table ->
  dict_get table "session_id" = session_id
  /\ (input = VNone ->
      table.*1 = ["output"; "session_id"]
      /\ is_list (dict_get table "output") || is_dict (dict_get table "output")
         = true)
  /\ (input ≠ VNone ->
      table.*1 = ["input"; "output"; "session_id"]
      /\ exists xs ys,
           dict_get table "input" = VList xs
           /\ dict_get table "output" = VList ys
           /\ length xs = length ys).
Proof.
  unfold _combine_input_and_output, and_then. intros H.
  match type of H with
  | match ?c with _ => _ end = _ => destruct c as [out|e]; [|done]
  end.
  destruct input as [|n|s|xs|items|pc md|cls]; try done.
  - injection H as <-. split; [done|]. split; [|done]. intros _.
    split; [done|]. simpl.
    destruct (is_list out || is_dict out) eqn:Hk; [done | done].
  - injection H as <-. split; [done|]. split; [done|]. intros _.
    split; [done|]. by exists [VStr s], [out].
  - destruct (forallb is_str xs || forallb is_dict xs); [|done].
    destruct out as [| | |ys| | |]; try done.
    destruct (decide (length ys ≠ length xs)) as [|Hlen]; [done|].
    injection H as <-. split; [done|]. split; [done|]. intros _.
    split; [done|]. exists xs, ys. repeat split; try done.
    destruct (decide (length xs = length ys)); [done | destruct Hlen; lia].
  - injection H as <-. split; [done|]. split; [done|]. intros _.
    split; [done|]. by exists [VDict items], [out].
Qed.

Lemma combine_builds_equal_columns_witness :
  let table :=
    [("input", VList [VStr "a"; VStr "b"]);
     ("output", VList [VStr "A"; VStr "B"]);
     ("session_id", VStr "s1")] in
  _combine_input_and_output INTERNAL_ERROR (VList [VStr "a"; VStr "b"])
    (VList [VStr "A"; VStr "B"]) (VStr "s1") "invoke" = Ok table
  /\ dict_get table "session_id" = VStr "s1".
Proof.
  cbv zeta. split; [reflexivity|].
  apply (combine_builds_equal_columns INTERNAL_ERROR
           (VList [VStr "a"; VStr "b"]) (VList [VStr "A"; VStr "B"])
           (VStr "s1") "invoke").
  reflexivity.
Defined.

(** X16: which inputs [_combine_input_and_output] accepts when the output
    is taken as it is (any function but [get_relevant_documents]): no
    input, a string, a dictionary, or a list of only strings or only
    dictionaries together with an output that is a list of the same length;
    the empty list is such a list.  Everything else raises an
    [MlflowException], and nothing else is ever raised. *)
Theorem combine_accepts_exactly
    (default_error_code : ErrorCode) (input output session_id : PyVal)
    (func_name : string) :
  func_name ≠ "get_relevant_documents" ->
  (is_ok (_combine_input_and_output default_error_code input output
            session_id func_name) = true
   <-> combinable input output)
  /\ (forall e,
        _combine_input_and_output default_error_code input output session_id
          func_name = Raise e ->
        exists message, e = MlflowException message default_error_code).
Proof.
  intros Hf. unfold _combine_input_and_output.
  rewrite decide_False by done. simpl.
  destruct input as [|n|s|xs|items|pc md|cls]; simpl;
    try (split; [split; [discriminate | done] | intros e [= <-]; eauto]);
    try (split; [done | discriminate]).
  destruct (forallb is_str xs) eqn:Hs; simpl.
  - destruct output as [| | |ys| | |]; simpl;
      try (split; [split; [discriminate | by intros [_ (ys & ? & _)]]
                  | intros e [= <-]; eauto]).
    destruct (decide (length ys ≠ length xs)) as [Hlen|Hlen]; simpl.
    + split; [split; [discriminate|] | intros e [= <-]; eauto].
      intros [_ (ys' & [= <-] & ?)]. done.
    + split; [|discriminate]. split; [|done]. intros _.
      split; [by left|]. exists ys. split; [done|].
      destruct (decide (length ys = length xs)); [done | by destruct Hlen].
  - destruct (forallb is_dict xs) eqn:Hd; simpl.
    + destruct output as [| | |ys| | |]; simpl;
        try (split; [split; [discriminate | by intros [_ (ys & ? & _)]]
                    | intros e [= <-]; eauto]).
      destruct (decide (length ys ≠ length xs)) as [Hlen|Hlen]; simpl.
      * split; [split; [discriminate|] | intros e [= <-]; eauto].
        intros [_ (ys' & [= <-] & ?)]. done.
      * split; [|discriminate]. split; [|done]. intros _.
        split; [by right|]. exists ys. split; [done|].
        destruct (decide (length ys = length xs)); [done | by destruct Hlen].
    + split; [split; [discriminate|] | intros e [= <-]; eauto].
      intros [[? | ?] _]; discriminate.
Qed.

Lemma combine_accepts_exactly_witness :
  "invoke" ≠ "get_relevant_documents"
  /\ (is_ok (_combine_input_and_output INTERNAL_ERROR (VList []) (VList [])
               (VStr "s1") "invoke") = true
      <-> combinable (VList []) (VList [])).
Proof.
  assert (H : "invoke" ≠ "get_relevant_documents") by discriminate.
  split; [exact H|].
  exact (proj1 (combine_accepts_exactly INTERNAL_ERROR (VList []) (VList [])
                  (VStr "s1") "invoke" H)).
Defined.

(** A list that mixes strings and dictionaries is refused, and so is a list
    of inputs with a single output. *)
Example combine_refuses_mixed_list :
  _combine_input_and_output INTERNAL_ERROR
    (VList [VStr "a"; VDict [("q", VStr "b")]]) (VList [VStr "A"; VStr "B"])
    (VStr "s1") "invoke"
  = Raise (MlflowException "Unsupported input type." INTERNAL_ERROR)
  /\ _combine_input_and_output INTERNAL_ERROR
       (VList [VStr "a"; VStr "b"]) (VStr "A") (VStr "s1") "invoke"
     = Raise (MlflowException different_lengths_message INTERNAL_ERROR).
Proof. split; reflexivity. Qed.

(** X17: for [get_relevant_documents] the output is rewritten before it is
    combined: a list of documents becomes the list of their dictionaries of
    page content and metadata, one per document and in the same order; with
    a query string as input that list is the single output of the table.
    The call raises exactly when some element of the list is not a
    document. *)
Theorem combine_rewrites_documents
    (default_error_code : ErrorCode) (query : string) (docs : list PyVal)
    (session_id : PyVal) :
  let result :=
    _combine_input_and_output default_error_code (VStr query) (VList docs)
      session_id "get_relevant_documents" in
  (forall table, result = Ok table ->
     exists dicts,
       table = [("input", VList [VStr query]); ("output", VList [VList dicts]);
                ("session_id", session_id)]
       /\ length dicts = length docs
       /\ forall i doc, docs !! i = Some doc ->
            exists page_content metadata,
              doc = VDocument page_content metadata
              /\ dicts !! i = Some (VDict [("page_content", page_content);
                                           ("metadata", metadata)]))
  /\ (is_ok result = true
      <-> Forall (fun doc => exists pc md, doc = VDocument pc md) docs).
Proof.
  cbv zeta. unfold _combine_input_and_output. rewrite decide_True by done.
  simpl. destruct (comprehension document_to_dict docs) as [dicts|e] eqn:Hc;
    simpl.
  - apply comprehension_documents in Hc. split.
    + intros table [= <-]. exists dicts. split; [done|].
      split; [symmetry; by eapply Forall2_length|].
      intros i doc Hi.
      destruct (Forall2_lookup_l _ _ _ _ _ Hc Hi)
        as (dict & Hd & pc & md & -> & ->).
      by exists pc, md.
    + split; [|done]. intros _.
      eapply Forall2_Forall_l; [exact Hc|].
      apply Forall_true. intros dict doc (pc & md & -> & _). eauto.
  - split; [discriminate|]. split; [discriminate|].
    intros Hall. exfalso.
    assert (exists dicts, comprehension document_to_dict docs = Ok dicts)
      as [dicts Hd]; [|by rewrite Hd in Hc].
    clear Hc. induction Hall as [|doc docs (pc & md & ->) _ [dicts IH]].
    + by exists [].
    + eexists. simpl. by rewrite IH.
Qed.

(** Two documents found for a query. *)
Example combine_two_documents :
  _combine_input_and_output INTERNAL_ERROR (VStr "what is mlflow")
    (VList [VDocument (VStr "p1") (VDict []);
            VDocument (VStr "p2") (VDict [("source", VStr "web")])])
    (VStr "s1") "get_relevant_documents"
  = Ok [("input", VList [VStr "what is mlflow"]);
        ("output",
         VList [VList [VDict [("page_content", VStr "p1");
                              ("metadata", VDict [])];
                       VDict [("page_content", VStr "p2");
                              ("metadata", VDict [("source", VStr "web")])]]]);
        ("session_id", VStr "s1")].
Proof. reflexivity. Qed.

Lemma or_empty_append_ok x cb v :
  or_empty_append x cb = Ok v -> v = VList (callback_list x ++ [cb]).
Proof.
  unfold or_empty_append.
  destruct x as [|n|s|xs|items|pc md|c]; simpl; try (by intros [= <-]).
  - destruct (negb _); by intros [= <-].
  - destruct s; by intros [= <-].
  - destruct xs; by intros [= <-].
  - destruct items; by intros [= <-].
Qed.

Lemma config_with_callback_ok config cb config' :
  config_with_callback config cb = Ok config' ->
  exists items',
    config' = VDict items'
    /\ dict_get items' "callbacks"
       = VList (callback_list
                  (match config with
                   | VDict items => dict_get items "callbacks"
                   | _ => VNone
                   end) ++ [cb])
    /\ forall key, key ≠ "callbacks" ->
         dict_get items' key
         = match config with
           | VDict items => dict_get items key
           | _ => VNone
           end.
Proof.
  destruct config as [|n|s|xs|items|pc md|c]; simpl; try done.
  - intros [= <-]. eexists. split; [done|]. split; [done|].
    intros key Hk. simpl. by rewrite decide_False.
  - destruct (or_empty_append (dict_get items "callbacks") cb) as [v|e] eqn:Ha;
      simpl; [|done].
    intros [= <-]. apply or_empty_append_ok in Ha as ->.
    eexists. split; [done|]. split; [apply dict_get_set|].
    intros key Hk. by apply dict_get_set_ne.
Qed.

(** X18: where [_inject_mlflow_callback] returns new arguments, the
    callbacks of the call are the callbacks it had, in their order, followed
    by the MLflow callback, which thus comes last; a call without callbacks
    (none given, [None], or an empty list) gets the MLflow callback alone.
    The number of positional arguments is unchanged. *)
Theorem inject_appends_the_callback
    (func_name : string) (mlflow_callback : PyVal) (args args' : list PyVal)
    (kwargs kwargs' : list (string * PyVal)) :
  _inject_mlflow_callback func_name mlflow_callback args kwargs
  = Ok (Some (args', kwargs')) ->
  callbacks_of func_name args' kwargs'
  = VList (callback_list (callbacks_of func_name args kwargs)
           ++ [mlflow_callback])
  /\ length args' = length args.
Proof.
  unfold _inject_mlflow_callback, callbacks_of.
  destruct (decide (func_name = "invoke")) as [->|Hi].
  - destruct args as [|a0 [|config rest]]; simpl.
    + destruct (config_with_callback _ _) as [c|e] eqn:Hc; simpl; [|done].
      intros [= <- <-]. apply config_with_callback_ok in Hc
        as (items' & -> & Hcb & _).
      by rewrite dict_get_set.
    + destruct (config_with_callback _ _) as [c|e] eqn:Hc; simpl; [|done].
      intros [= <- <-]. apply config_with_callback_ok in Hc
        as (items' & -> & Hcb & _).
      by rewrite dict_get_set.
    + destruct (config_with_callback _ _) as [c|e] eqn:Hc; simpl; [|done].
      intros [= <- <-]. apply config_with_callback_ok in Hc
        as (items' & -> & Hcb & _).
      done.
  - destruct (decide (func_name = "__call__")) as [->|Hc].
    + destruct args as [|a0 [|a1 [|callbacks rest]]]; simpl;
        destruct (or_empty_append _ _) as [v|e] eqn:Ha; simpl; try done;
        intros [= <- <-]; apply or_empty_append_ok in Ha as ->;
        by rewrite ?dict_get_set.
    + destruct (decide (func_name = "get_relevant_documents")) as [->|Hg];
        [|done].
      destruct (or_empty_append _ _) as [v|e] eqn:Ha; simpl; [|done].
      intros [= <- <-]. apply or_empty_append_ok in Ha as ->.
      by rewrite dict_get_set.
Qed.

Lemma inject_appends_the_callback_witness :
  let handler := VObject "StdOutCallbackHandler" in
  let mlflow_callback := VObject "_MLflowLangchainCallback" in
  let args := [VStr "hi"; VDict [("callbacks", VList [handler])]] in
  let args' :=
    [VStr "hi"; VDict [("callbacks", VList [handler; mlflow_callback])]] in
  _inject_mlflow_callback "invoke" mlflow_callback args [] = Ok (Some (args', []))
  /\ callbacks_of "invoke" args' [] = VList [handler; mlflow_callback].
Proof.
  cbv zeta. split; [reflexivity|].
  exact (proj1 (inject_appends_the_callback "invoke"
                  (VObject "_MLflowLangchainCallback")
                  [VStr "hi";
                   VDict [("callbacks",
                           VList [VObject "StdOutCallbackHandler"])]]
                  _ [] [] eq_refl)).
Defined.

(** X19: [_inject_mlflow_callback] changes one place only.  Every
    positional argument but the one that carries the configuration
    ([invoke], the second) or the callbacks ([__call__], the third) is as it
    was, and so is every keyword but [config] ([invoke]) or [callbacks];
    when the place is among the positional arguments the keywords are not
    touched at all, and otherwise the positional arguments are not. *)
Theorem inject_changes_one_place
    (func_name : string) (mlflow_callback : PyVal) (args args' : list PyVal)
    (kwargs kwargs' : list (string * PyVal)) :
  _inject_mlflow_callback func_name mlflow_callback args kwargs
  = Ok (Some (args', kwargs')) ->
  (forall i, Some i ≠ slot_index func_name -> args' !! i = args !! i)
  /\ (forall key, key ≠ slot_key func_name ->
        dict_get kwargs' key = dict_get kwargs key)
  /\ (args' = args \/ kwargs' = kwargs).
Proof.
  unfold _inject_mlflow_callback, slot_index, slot_key.
  destruct (decide (func_name = "invoke")) as [->|Hi].
  - destruct args as [|a0 [|config rest]]; simpl;
      destruct (config_with_callback _ _) as [c|e]; simpl; try done;
      intros [= <- <-].
    + split; [done|]. split; [|by left].
      intros key Hk. by apply dict_get_set_ne.
    + split; [done|]. split; [|by left].
      intros key Hk. by apply dict_get_set_ne.
    + split; [|split; [done | by right]].
      intros [|[|i]] Hne; [done | by destruct Hne | done].
  - destruct (decide (func_name = "__call__")) as [->|Hc].
    + destruct args as [|a0 [|a1 [|callbacks rest]]]; simpl;
        destruct (or_empty_append _ _) as [v|e]; simpl; try done;
        intros [= <- <-].
      * split; [done|]. split; [|by left].
        intros key Hk. by apply dict_get_set_ne.
      * split; [done|]. split; [|by left].
        intros key Hk. by apply dict_get_set_ne.
      * split; [done|]. split; [|by left].
        intros key Hk. by apply dict_get_set_ne.
      * split; [|split; [done | by right]].
        intros [|[|[|i]]] Hne; [done | done | by destruct Hne | done].
    + destruct (decide (func_name = "get_relevant_documents")) as [->|Hg];
        [|done].
      destruct (or_empty_append _ _) as [v|e]; simpl; [|done].
      intros [= <- <-]. split; [done|]. split; [|by left].
      intros key Hk. by apply dict_get_set_ne.
Qed.

Lemma inject_changes_one_place_witness :
  let mlflow_callback := VObject "_MLflowLangchainCallback" in
  let kwargs := [("inputs", VStr "hi"); ("tags", VList [VStr "t"])] in
  let kwargs' :=
    [("inputs", VStr "hi"); ("tags", VList [VStr "t"]);
     ("callbacks", VList [mlflow_callback])] in
  _inject_mlflow_callback "__call__" mlflow_callback [] kwargs
  = Ok (Some ([], kwargs'))
  /\ forall key, key ≠ slot_key "__call__" ->
       dict_get kwargs' key = dict_get kwargs key.
Proof.
  cbv zeta. split; [reflexivity|].
  destruct (inject_changes_one_place "__call__"
              (VObject "_MLflowLangchainCallback") [] []
              [("inputs", VStr "hi"); ("tags", VList [VStr "t"])]
              _ eq_refl) as (_ & H & _).
  exact H.
Defined.

Lemma or_empty_append_is_ok x cb :
  is_ok (or_empty_append x cb) = true <-> appendable x.
Proof.
  unfold or_empty_append, appendable.
  destruct x as [|n|s|xs|items|pc md|c]; simpl; try done.
  - destruct (negb _); simpl; [split; [done | by intros H; specialize (H eq_refl)] | done].
  - destruct s; simpl; [done | split; [done | by intros H; specialize (H eq_refl)]].
  - by destruct xs.
  - destruct items; simpl; [done | split; [done | by intros H; specialize (H eq_refl)]].
  - split; [done | by intros H; specialize (H eq_refl)].
  - split; [done | by intros H; specialize (H eq_refl)].
Qed.

Lemma or_empty_append_raises x cb e :
  or_empty_append x cb = Raise e -> exists m, e = AttributeError m.
Proof.
  unfold or_empty_append, no_attribute.
  destruct (truthy_val x); [|done]. destruct x; intros [= <-]; eauto.
Qed.

Lemma is_ok_and_then {A B} (r : Res A) (k : A -> Res B) :
  (forall a, is_ok (k a) = true) -> is_ok (and_then r k) = is_ok r.
Proof. intros Hk. destruct r; simpl; [apply Hk | done]. Qed.

(** X20: on which calls [_inject_mlflow_callback] succeeds.  For one of the
    three function names it returns new arguments exactly when the place of
    the callbacks holds nothing, a false value or a list, and (for
    [invoke]) the configuration is absent, [None] or a dictionary;
    otherwise it raises [AttributeError], as for callbacks given as a
    callback manager object.  For any other function name it returns
    [None]. *)
Theorem inject_succeeds_exactly
    (func_name : string) (mlflow_callback : PyVal) (args : list PyVal)
    (kwargs : list (string * PyVal)) :
  let result := _inject_mlflow_callback func_name mlflow_callback args kwargs in
  (func_name ∈ ["invoke"; "__call__"; "get_relevant_documents"] ->
   ((exists args' kwargs', result = Ok (Some (args', kwargs')))
    <-> injectable func_name args kwargs)
   /\ (forall e, result = Raise e -> exists m, e = AttributeError m))
  /\ (func_name ∉ ["invoke"; "__call__"; "get_relevant_documents"] ->
      result = Ok None).
Proof.
  cbv zeta. unfold _inject_mlflow_callback, injectable, callbacks_of.
  assert (Hcfg : forall config,
    ((exists c, config_with_callback config mlflow_callback = Ok c)
     <-> match config with
         | VNone => True
         | VDict items => appendable (dict_get items "callbacks")
         | _ => False
         end)
    /\ (forall e, config_with_callback config mlflow_callback = Raise e ->
          exists m, e = AttributeError m)).
  { intros config. unfold config_with_callback, no_attribute.
    destruct config as [|n|s|xs|items|pc md|c]; simpl;
      try (split; [split; [by intros [? ?] | done] | intros e [= <-]; eauto]).
    - split; [split; [done | eauto] | done].
    - rewrite <- (or_empty_append_is_ok _ mlflow_callback).
      destruct (or_empty_append (dict_get items "callbacks") mlflow_callback)
        as [v|e] eqn:Ha; simpl.
      + split; [split; [done | eauto] | done].
      + split; [split; [by intros [? ?] | done]|].
        intros e' [= <-]. by apply or_empty_append_raises in Ha. }
  assert (Hcb : forall x,
    ((exists v, or_empty_append x mlflow_callback = Ok v) <-> appendable x)
    /\ (forall e, or_empty_append x mlflow_callback = Raise e ->
          exists m, e = AttributeError m)).
  { intros x. rewrite <- (or_empty_append_is_ok _ mlflow_callback).
    destruct (or_empty_append x mlflow_callback) as [v|e] eqn:Ha; simpl.
    - split; [split; [done | eauto] | done].
    - split; [split; [by intros [? ?] | done]|].
      intros e' [= <-]. by apply or_empty_append_raises in Ha. }
  split.
  - intros Hin.
    destruct (decide (func_name = "invoke")) as [->|Hi].
    + destruct args as [|a0 [|config rest]]; simpl;
        match goal with
        | |- context [config_with_callback ?c _] =>
            destruct (Hcfg c) as [Hok Herr];
            destruct (config_with_callback c mlflow_callback) as [c'|e];
            simpl
        end;
        (split;
           [rewrite <- Hok; split;
              [intros (? & ? & H); first [done | eauto]
              | intros [? H]; first [done | eauto]]
           | first [done | intros e' [= <-]; by apply Herr]]).
    + destruct (decide (func_name = "__call__")) as [->|Hc].
      * destruct args as [|a0 [|a1 [|callbacks rest]]]; simpl;
          match goal with
          | |- context [or_empty_append ?c _] =>
              destruct (Hcb c) as [Hok Herr];
              destruct (or_empty_append c mlflow_callback) as [c'|e];
              simpl
          end;
          (split;
             [rewrite <- Hok; split;
                [intros (? & ? & H); first [done | eauto]
                | intros [? H]; first [done | eauto]]
             | first [done | intros e' [= <-]; by apply Herr]]).
      * destruct (decide (func_name = "get_relevant_documents")) as [->|Hg].
        -- destruct (Hcb (dict_get kwargs "callbacks")) as [Hok Herr].
           destruct (or_empty_append _ _) as [c'|e]; simpl;
             (split;
                [rewrite <- Hok; split;
                   [intros (? & ? & H); first [done | eauto]
                   | intros [? H]; first [done | eauto]]
                | first [done | intros e' [= <-]; by apply Herr]]).
        -- exfalso. revert Hin. rewrite !elem_of_cons, elem_of_nil.
           tauto.
  - intros Hout.
    rewrite !decide_False; [done | | |];
      intros ->; apply Hout; rewrite !elem_of_cons; tauto.
Qed.

(** Callbacks given as a callback manager make the injection fail. *)
Example inject_refuses_a_callback_manager :
  _inject_mlflow_callback "__call__" (VObject "_MLflowLangchainCallback")
    [VDict [("query", VStr "hi")]]
    [("callbacks", VObject "CallbackManager")]
  = Raise (AttributeError "'CallbackManager' object has no attribute 'append'").
Proof. reflexivity. Qed.

(** The first positional argument and the keywords naming an input are not
    among the places the injection writes. *)
Lemma inject_keeps_the_input_places func_name cb args kwargs args' kwargs' :
  _inject_mlflow_callback func_name cb args kwargs
  = Ok (Some (args', kwargs')) ->
  head args' = head args
  /\ forall key, key ≠ "config" -> key ≠ "callbacks" ->
       dict_get kwargs' key = dict_get kwargs key.
Proof.
  unfold _inject_mlflow_callback.
  destruct (decide (func_name = "invoke")) as [->|Hi].
  - destruct args as [|a0 [|config rest]]; simpl;
      destruct (config_with_callback _ _) as [c|e]; simpl; try done;
      intros [= <- <-]; (split; [done|]); intros key H1 H2;
      by rewrite ?dict_get_set_ne.
  - destruct (decide (func_name = "__call__")) as [->|Hc].
    + destruct args as [|a0 [|a1 [|callbacks rest]]]; simpl;
        destruct (or_empty_append _ _) as [v|e]; simpl; try done;
        intros [= <- <-]; (split; [done|]); intros key H1 H2;
        by rewrite ?dict_get_set_ne.
    + destruct (decide (func_name = "get_relevant_documents")) as [->|Hg];
        [|done].
      destruct (or_empty_append _ _) as [v|e]; simpl; [|done].
      intros [= <- <-]. split; [done|]. intros key H1 H2.
      by rewrite dict_get_set_ne.
Qed.

Lemma mapping_get_values func_name param_name :
  mapping_get func_name = Some param_name ->
  param_name ≠ "config" /\ param_name ≠ "callbacks".
Proof.
  unfold mapping_get, func_param_name_mapping.
  repeat case_decide; intros [= <-]; done.
Qed.

(** X21: injecting the callback does not change the input data gathered
    afterwards: [_get_input_data_from_function] on the arguments
    [_inject_mlflow_callback] returns gives what it gives on the arguments
    of the caller, warning for warning, for every model. *)
Theorem injection_keeps_the_input_data
    (func_name : string) (mlflow_callback : PyVal) (model : ModelObject)
    (args args' : list PyVal) (kwargs kwargs' : list (string * PyVal))
    (tr : Trace) :
  _inject_mlflow_callback func_name mlflow_callback args kwargs
  = Ok (Some (args', kwargs')) ->
  _get_input_data_from_function func_name model args' kwargs' tr
  = _get_input_data_from_function func_name model args kwargs tr.
Proof.
  intros Hinj.
  apply inject_keeps_the_input_places in Hinj as [Hhead Hkw].
  unfold _get_input_data_from_function.
  destruct (mapping_get func_name) as [param_name|] eqn:Hmap; [|done].
  apply mapping_get_values in Hmap as [Hc1 Hc2].
  destruct (signature model func_name) as [[|first ps]|]; try done.
  destruct (decide (first ≠ param_name)); [done|].
  destruct args as [|a0 args], args' as [|a0' args']; simpl in Hhead;
    try done.
  - by rewrite (Hkw param_name Hc1 Hc2).
  - by injection Hhead as ->.
Qed.

Lemma injection_keeps_the_input_data_witness :
  let model :=
    {| class_name := "LLMChain";
       signature := fun f =>
         if decide (f = "invoke") then Some ["input"; "config"] else None |} in
  let mlflow_callback := VObject "_MLflowLangchainCallback" in
  _inject_mlflow_callback "invoke" mlflow_callback [] [("input", VStr "hi")]
  = Ok (Some ([], [("input", VStr "hi");
                   ("config", VDict [("callbacks", VList [mlflow_callback])])]))
  /\ _get_input_data_from_function "invoke" model []
       [("input", VStr "hi");
        ("config", VDict [("callbacks", VList [mlflow_callback])])] []
     = (Ok (VStr "hi"), []).
Proof.
  cbv zeta. split; [reflexivity|].
  rewrite (injection_keeps_the_input_data "invoke"
             (VObject "_MLflowLangchainCallback") _ [] []
             [("input", VStr "hi")] _ [] eq_refl).
  reflexivity.
Defined.

(** Induction over a model and the models inside it. *)
Lemma LcModel_nested_ind (P : LcModel -> Prop) :
  (forall branches default,
     Forall (fun branch => P branch.1 /\ P branch.2) branches -> P default ->
     P (RunnableBranch branches default)) ->
  (forall steps, Forall (fun step => P step.2) steps ->
     P (RunnableParallel steps)) ->
  (forall steps, Forall P steps -> P (RunnableSequence steps)) ->
  (forall mapper, P mapper -> P (RunnableAssign mapper)) ->
  P BaseRetriever -> P RetrievalQA -> (forall cls, P (OtherModel cls)) ->
  forall model, P model.
Proof.
  intros Hbranch Hparallel Hsequence Hassign Hretriever Hqa Hother.
  fix IH 1. intros [branches default|steps|steps|mapper| | |cls].
  - apply Hbranch; [|apply IH].
    induction branches as [|[condition runnable] branches IHb];
      constructor; [split; apply IH | exact IHb].
  - apply Hparallel.
    induction steps as [|[key runnable] steps IHs];
      constructor; [apply IH | exact IHs].
  - apply Hsequence.
    induction steps as [|runnable steps IHs];
      constructor; [apply IH | exact IHs].
  - apply Hassign, IH.
  - exact Hretriever.
  - exact Hqa.
  - apply Hother.
Qed.

Lemma existsb_elem_of {A} (f : A -> bool) (l : list A) :
  existsb f l = true <-> exists x, x ∈ l /\ f x = true.
Proof.
  rewrite existsb_exists. split; intros (x & Hin & Hf); exists x;
    (split; [by apply list_elem_of_In | done]).
Qed.

(** X22: with the runnable classes importable, [_runnable_with_retriever]
    answers true exactly for a model that holds a retriever where the
    function looks: the model itself, or, at any depth, the runnable of a
    branch, a step of a parallel or of a sequence, the mapper of an
    assignment. *)
Theorem runnable_with_retriever_finds_held_retrievers (model : LcModel) :
  _runnable_with_retriever true model = true <-> holds_retriever model.
Proof.
  split.
  - induction model as [branches default IHb _|steps IHs|steps IHs|mapper IH| | |cls]
      using LcModel_nested_ind; simpl; try done.
    + intros ([condition runnable] & Hin & Hf)%existsb_elem_of.
      apply (holds_branch _ _ condition runnable); [done|].
      rewrite Forall_forall in IHb. by apply (IHb _ Hin).
    + intros ([key runnable] & Hin & Hf)%existsb_elem_of.
      apply (holds_parallel _ key runnable); [done|].
      rewrite Forall_forall in IHs. by apply (IHs _ Hin).
    + intros (runnable & Hin & Hf)%existsb_elem_of.
      apply (holds_sequence _ runnable); [done|].
      rewrite Forall_forall in IHs. by apply IHs.
    + intros Hf. by apply holds_assign, IH.
    + intros _. constructor.
  - induction 1 as [|branches default condition runnable Hin _ IH
                    |steps key runnable Hin _ IH
                    |steps runnable Hin _ IH|mapper _ IH]; simpl; try done.
    + apply existsb_elem_of. by exists (condition, runnable).
    + apply existsb_elem_of. by exists (key, runnable).
    + apply existsb_elem_of. by exists runnable.
Qed.

(** X23: what [_runnable_with_retriever] does not look at.  The answer for
    a [RunnableBranch] depends on neither its conditions nor its default,
    so a retriever that is only the default of a branch is not found; and
    when the runnable classes cannot be imported only a model that is
    itself a retriever is found, whatever it holds. *)
Theorem runnable_with_retriever_blind_spots
    (branches : list (LcModel * LcModel)) (default default' : LcModel)
    (recondition : LcModel -> LcModel) (model : LcModel) :
  _runnable_with_retriever true (RunnableBranch branches default)
  = _runnable_with_retriever true
      (RunnableBranch ((fun branch => (recondition branch.1, branch.2))
                         <$> branches) default')
  /\ _runnable_with_retriever true (RunnableBranch [] BaseRetriever) = false
  /\ _runnable_with_retriever false model = is_BaseRetriever model
  /\ (holds_retriever model -> model ≠ BaseRetriever ->
      _runnable_with_retriever false model = false).
Proof.
  split; [|split; [done|split]].
  - induction branches as [|[condition runnable] branches IH]; [done|].
    simpl in *. by rewrite IH.
  - by destruct model.
  - intros _ Hne. by destruct model.
Qed.

(** A sequence with a retriever as second step, and the same inside the
    default of a branch. *)
Example retriever_in_a_sequence :
  _runnable_with_retriever true
    (RunnableSequence [OtherModel "PromptTemplate"; BaseRetriever]) = true
  /\ _runnable_with_retriever true
       (RunnableBranch [(OtherModel "RunnableLambda", OtherModel "LLMChain")]
          (RunnableSequence [OtherModel "PromptTemplate"; BaseRetriever]))
     = false.
Proof. split; reflexivity. Qed.
